(** * CatHerder: the generate / execute / repair loop of [catHerder.py]

    A shallow embedding of [catHerder.py].  Python strings are [string]s
    (one [ascii] per character), Python integers are [Z], the file system
    is a finite map from paths to contents, and everything the script does
    to the outside world (model requests, [exec], [input], [print], file
    writes) is threaded through an explicit [World] by a small
    state-and-exception monad.

    The environment is scripted: the world carries the lines the user will
    type, the replies the model will send and the outcomes the executions
    will have, and each call takes the next one.  Quantifying over worlds
    quantifies over everything the environment can do.  Two things are taken
    for granted: a file opened for writing can be written, and a reply of
    the model has a text content. *)

From Stdlib Require Import ZArith Ascii String.
From stdpp Require Import base option list strings pretty gmap.

Local Open Scope Z_scope.

(** ** Python string primitives *)

Module PyStr.

(** [len(s)] as a Python integer. *)
Definition len (s : string) : Z := Z.of_nat (String.length s).

(** [s.startswith(sub)] *)
Fixpoint starts_with (sub s : string) : bool :=
  match sub, s with
  | EmptyString, _ => true
  | String a sub', String b s' => if Ascii.eqb a b then starts_with sub' s' else false
  | String _ _, EmptyString => false
  end.

(** [s[n:]] for a natural [n]. *)
Fixpoint drop (n : nat) (s : string) : string :=
  match n, s with
  | O, _ => s
  | S n', String _ s' => drop n' s'
  | S _, EmptyString => EmptyString
  end.

(** [s[:n]] for a natural [n]. *)
Fixpoint take (n : nat) (s : string) : string :=
  match n, s with
  | O, _ => EmptyString
  | S n', String a s' => String a (take n' s')
  | S _, EmptyString => EmptyString
  end.

(** Offset of the first occurrence of [sub] in [s], scanning left to right. *)
Fixpoint first_occurrence (sub s : string) : option nat :=
  if starts_with sub s then Some O
  else match s with
       | EmptyString => None
       | String _ s' => S <$> first_occurrence sub s'
       end.

(** How Python turns a slice bound into an offset in [0, len]: a negative
    bound counts from the end, and everything is clamped. *)
Definition clamp (n i : Z) : Z :=
  if i <? 0 then Z.max (i + n) 0 else Z.min i n.

(** [s.find(sub, start)]: the lowest index at or after [start] where [sub]
    occurs, [-1] when there is none (in particular when [start > len(s)]). *)
Definition find (s sub : string) (start : Z) : Z :=
  let n := len s in
  let st := if start <? 0 then Z.max (start + n) 0 else start in
  if n <? st then -1
  else match first_occurrence sub (drop (Z.to_nat st) s) with
       | Some i => st + Z.of_nat i
       | None => -1
       end.

(** [s[start:stop]] *)
Definition slice (s : string) (start stop : Z) : string :=
  let n := len s in
  let lo := clamp n start in
  let hi := clamp n stop in
  take (Z.to_nat (hi - lo)) (drop (Z.to_nat lo) s).

(** [sub in s] *)
Definition contains (s sub : string) : bool :=
  bool_decide (is_Some (first_occurrence sub s)).

End PyStr.

(** ** [extract_code] *)

(** The newline character, ["\n"]. *)
Definition nl : string := String (ascii_of_nat 10) EmptyString.

Definition fence : string := "```".

(** The [content] argument is [response['choices'][0]['message']['content']]. *)
Definition extract_code (content code_type : string) : string :=
  let start_tag := fence +:+ code_type +:+ nl in
  let start_index := PyStr.find content start_tag 0 + PyStr.len start_tag in
  let end_index := PyStr.find content (nl +:+ fence) start_index in
  PyStr.slice content start_index end_index.

(** ** The outside world *)

(** What one call of [exec(code)] does: return, raise an [Exception] whose
    [str] is [msg], or leave through something that is not an [Exception]
    ([SystemExit], [KeyboardInterrupt]). *)
Inductive ExecOutcome :=
| ExecOk
| ExecRaises (msg : string)
| ExecAborts.

(** Observable actions, in the order the script performs them. *)
Inductive event :=
| EvUsage
| EvPrint (text : string)
| EvInput (prompt answer : string)
| EvRequest (model system user reply : string)
| EvExec (code : string) (outcome : ExecOutcome)
| EvMkdir (path : string)
| EvWrite (path text : string).

(** The file system holds regular files ([files]) and directories ([dirs]).
    [stdin], [llm] and [execs] are the answers the environment will give, in
    order, to [input], to the chat requests and to [exec]; a tape that has
    run out stands for a call that fails.  [api_key] is the module-global
    [openai.api_key]. *)
Record World := mkWorld {
  files : gmap string string;
  dirs : gset string;
  stdin : list string;
  llm : list string;
  execs : list ExecOutcome;
  api_key : option string;
  log : list event
}.

Definition emit (e : event) (w : World) : World :=
  mkWorld (files w) (dirs w) (stdin w) (llm w) (execs w) (api_key w) (log w ++ [e]).

(** Python exceptions, as far as [except Exception] tells them apart. *)
Inductive exn :=
| Exception (msg : string)
| BaseException.

Inductive result (A : Type) :=
| Ok (a : A)
| Raise (e : exn).
Arguments Ok {A} a.
Arguments Raise {A} e.

Definition M (A : Type) : Type := World -> result A * World.

Definition ret {A} (a : A) : M A := fun w => (Ok a, w).

Definition bind {A B} (m : M A) (k : A -> M B) : M B :=
  fun w => match m w with
           | (Ok a, w') => k a w'
           | (Raise e, w') => (Raise e, w')
           end.

Definition raise {A} (e : exn) : M A := fun w => (Raise e, w).

(** [try: body / except Exception as e: handler(str(e))] *)
Definition try_except {A} (body : M A) (handler : string -> M A) : M A :=
  fun w => match body w with
           | (Raise (Exception msg), w') => handler msg w'
           | r => r
           end.

Notation "x <- m ;; k" := (bind m (fun x => k))
  (at level 100, m at next level, right associativity).
Notation "m ;;; k" := (bind m (fun _ => k))
  (at level 100, right associativity).

(** *** Primitive actions *)

Definition print (text : string) : M unit :=
  fun w => (Ok tt, emit (EvPrint text) w).

Definition print_usage : M unit :=
  fun w => (Ok tt, emit EvUsage w).

(** [input(prompt)] *)
Definition input (prompt : string) : M string :=
  fun w => match stdin w with
           | [] => (Raise (Exception "EOF when reading a line"), w)
           | line :: rest =>
               (Ok line,
                emit (EvInput prompt line)
                  (mkWorld (files w) (dirs w) rest (llm w) (execs w) (api_key w) (log w)))
           end.

(** [with open(path, 'r') as file: file.read()] *)
Definition read_file (path : string) : M string :=
  fun w => match files w !! path with
           | Some text => (Ok text, w)
           | None =>
               (Raise (Exception ("[Errno 2] No such file or directory: '" +:+ path +:+ "'")), w)
           end.

(** [os.path.isfile(path)] *)
Definition isfile (path : string) : M bool :=
  fun w => (Ok (bool_decide (is_Some (files w !! path))), w).

(** [os.path.exists(path)] *)
Definition path_exists (path : string) : M bool :=
  fun w => (Ok (bool_decide (path ∈ dirs w) || bool_decide (is_Some (files w !! path))), w).

(** [os.makedirs(path)] *)
Definition makedirs (path : string) : M unit :=
  fun w => (Ok tt,
            emit (EvMkdir path)
              (mkWorld (files w) ({[path]} ∪ dirs w) (stdin w) (llm w) (execs w) (api_key w) (log w))).

(** [with open(path, 'w') as file: file.write(text)]; opening for writing
    is taken to succeed. *)
Definition write_file (path text : string) : M unit :=
  fun w => (Ok tt,
            emit (EvWrite path text)
              (mkWorld (<[path := text]> (files w)) (dirs w) (stdin w) (llm w) (execs w)
                 (api_key w) (log w))).

(** [openai.api_key = key] *)
Definition set_api_key (key : string) : M unit :=
  fun w => (Ok tt, mkWorld (files w) (dirs w) (stdin w) (llm w) (execs w) (Some key) (log w)).

(** [client.chat.completions.create(model=..., messages=[system, user])],
    returning the content of the first choice. *)
Definition chat_completions_create (model system user : string) : M string :=
  fun w => match llm w with
           | [] => (Raise (Exception "Connection error."), w)
           | reply :: rest =>
               (Ok reply,
                emit (EvRequest model system user reply)
                  (mkWorld (files w) (dirs w) (stdin w) rest (execs w) (api_key w) (log w)))
           end.

(** [exec(code)] *)
Definition exec (code : string) : M unit :=
  fun w =>
    let outcome := match execs w with [] => ExecAborts | o :: _ => o end in
    let w' := emit (EvExec code outcome)
                (mkWorld (files w) (dirs w) (stdin w) (llm w) (tail (execs w)) (api_key w) (log w)) in
    match outcome with
    | ExecOk => (Ok tt, w')
    | ExecRaises msg => (Raise (Exception msg), w')
    | ExecAborts => (Raise BaseException, w')
    end.

(** ** The script *)

(** [str.strip()]: ASCII white space removed at both ends. *)
Definition is_space (c : ascii) : bool :=
  let n := nat_of_ascii c in
  (Nat.leb 9 n && Nat.leb n 13) || (Nat.leb 28 n && Nat.leb n 32).

Fixpoint lstrip (s : string) : string :=
  match s with
  | String c s' => if is_space c then lstrip s' else s
  | EmptyString => EmptyString
  end.

Fixpoint rstrip (s : string) : string :=
  match s with
  | String c s' =>
      match rstrip s' with
      | EmptyString => if is_space c then EmptyString else String c EmptyString
      | r => String c r
      end
  | EmptyString => EmptyString
  end.

Definition strip (s : string) : string := rstrip (lstrip s).

Definition read_api_key (file_path : string) : M string :=
  text <- read_file file_path ;;
  ret (strip text).

Definition call_chatgpt (prompt code_type special_instructions : string) : M string :=
  let special_instructions :=
    "Implement a " +:+ code_type +:+ " script in a single code block to perform this task: " in
  response <- chat_completions_create "gpt-4" "You are a helpful assistant."
                (special_instructions +:+ prompt) ;;
  ret (extract_code response code_type).

(** The default of the [special_instructions] parameter. *)
Definition default_instructions : string :=
  "Implement a script in a single code block to perform this task: ".

(** How an f-string renders a value that is a [str] or [None]. *)
Definition fmt (v : option string) : string :=
  match v with
  | Some s => s
  | None => "None"
  end.

(** The text [debug_code_with_chatgpt] builds around its three arguments. *)
Definition repair_prompt (original_prompt code error : string) : string :=
  "The original prompt was:" +:+ nl +:+ nl +:+ original_prompt +:+ nl +:+ nl +:+
  "Here is the code:" +:+ nl +:+ nl +:+ code +:+ nl +:+ nl +:+
  "It produced the following error:" +:+ nl +:+ nl +:+ error +:+ nl +:+ nl +:+
  "Please help me fix it.".

Definition debug_code_with_chatgpt (original_prompt : option string)
    (code error code_type : string) : M string :=
  let prompt := repair_prompt (fmt original_prompt) code error in
  call_chatgpt prompt code_type default_instructions.

(** The extension [save_code_to_file] gives to a code type. *)
Definition ext_of (code_type : string) : string :=
  if bool_decide (code_type = "python") then "py" else code_type.

Definition script_path (status code_type : string) : string :=
  "./scripts/script_" +:+ status +:+ "." +:+ ext_of code_type.

Definition save_code_to_file (code code_type : string) (iteration : Z) (status : string)
    : M unit :=
  there <- path_exists "./scripts" ;;
  (if negb there then makedirs "./scripts" else ret tt) ;;;
  let ext := ext_of code_type in
  let file_path := "./scripts/script_" +:+ status +:+ "." +:+ ext in
  write_file file_path code.

(** The parsed command line. *)
Record Args := mkArgs {
  prompt : option string;
  modify : option string;
  code_type : string;
  iterations : Z
}.

(** Truth value of an optional string: [None] and [""] are false. *)
Definition truthy (v : option string) : bool :=
  match v with
  | Some s => negb (bool_decide (s = ""))
  | None => false
  end.

(** The local variables the loop of [main] reads and assigns. *)
Record LoopState := mkLoop {
  code : string;
  last_error_message : option string
}.

(** The three [break] statements of the loop. *)
Inductive break_site :=
| NotExecutable
| ExecutedOk
| SameError.

(** How the [for] loop was left. *)
Inductive loop_exit :=
| RangeExhausted
| BreakAt (i : Z) (site : break_site).

(** The three places where [main] returns. *)
Inductive exit_point :=
| UsageExit
| LatexExit
| FinalExit (how : loop_exit).

(** [range(1, n + 1)] *)
Definition range1 (n : Z) : list Z :=
  Z.of_nat <$> seq 1 (Z.to_nat n).

(** Lines 138 to 149: resolve the request and generate the first code.  The
    last branch, where neither option is set, leaves [code] unbound; [main]
    has returned before it can get there. *)
Definition initial_code (args : Args) : M string :=
  if truthy (prompt args) then
    let p := fmt (prompt args) in
    is_path <- isfile p ;;
    prompt <- (if is_path then read_file p else ret p) ;;
    call_chatgpt prompt (code_type args) default_instructions
  else if truthy (modify args) then
    code <- read_file (fmt (modify args)) ;;
    prompt <- input "Please describe the modifications you want to make: " ;;
    call_chatgpt prompt (code_type args)
      ("Modify the following code:" +:+ nl +:+ nl +:+ code +:+ nl +:+ nl)
  else raise (Exception "cannot access local variable 'code' where it is not associated with a value").

(** One pass through the body of the loop: the state afterwards, and the
    [break] taken, if any. *)
Definition iteration (args : Args) (i : Z) (st : LoopState)
    : M (LoopState * option break_site) :=
  print (nl +:+ "Iteration " +:+ pretty i +:+ ":") ;;;
  try_except
    (if bool_decide (code_type args = "python") then
       exec (code st) ;;;
       print "Code executed successfully." ;;;
       save_code_to_file (code st) (code_type args) i "debugged" ;;;
       print ("Saved to ./scripts/script_debugged." +:+ code_type args) ;;;
       ret (st, Some ExecutedOk)
     else
       print "Execution not supported for this code type in the current implementation." ;;;
       ret (st, Some NotExecutable))
    (fun error_message =>
       print ("Error encountered: " +:+ error_message) ;;;
       if bool_decide (Some error_message = last_error_message st) then
         print "Encountered the same error. Stopping iterations." ;;;
         ret (st, Some SameError)
       else
         code <- debug_code_with_chatgpt (prompt args) (code st) error_message
                   (code_type args) ;;
         print "------------------" ;;;
         print ("ChatGPT suggests the following fix:" +:+ nl +:+ " " +:+ code) ;;;
         print "------------------" ;;;
         save_code_to_file code (code_type args) i ("iteration_" +:+ pretty i) ;;;
         ret (mkLoop code (Some error_message), None)).

(** [for i in range(...)]: run the body for each index until a [break]. *)
Fixpoint for_loop (args : Args) (indices : list Z) (st : LoopState)
    : M (LoopState * loop_exit) :=
  match indices with
  | [] => ret (st, RangeExhausted)
  | i :: rest =>
      r <- iteration args i st ;;
      match r with
      | (st', Some site) => ret (st', BreakAt i site)
      | (st', None) => for_loop args rest st'
      end
  end.

(** Lines 125 to 132: neither option was given. *)
Definition usage : M exit_point :=
  print_usage ;;;
  print (nl +:+ "Usage Information:") ;;;
  print "  -p, --prompt: The code prompt to generate new code or the path to a file containing the prompt." ;;;
  print "  -m, --modify: The path to the existing code file to modify." ;;;
  print "  -c, --code_type: The type of code (default: python, latex, html, etc.). Default is 'python'." ;;;
  print "  -i, --iterations: Number of debug iterations to perform. Default is 5." ;;;
  print (nl +:+ "Either a prompt or a path to modify an existing code file must be provided.") ;;;
  ret UsageExit.

(** Lines 134 to 149: read the key, then generate the first code. *)
Definition startup (args : Args) : M string :=
  api_key <- read_api_key "api_key.txt" ;;
  set_api_key api_key ;;;
  initial_code args.

(** Lines 151 to 198: save the first code, run the loop, save the last
    code. *)
Definition debug_and_save (args : Args) (code : string) : M exit_point :=
  if bool_decide (code_type args = "latex") then
    save_code_to_file code (code_type args) 0 "initial" ;;;
    print ("Code saved to ./scripts/script_initial." +:+ code_type args) ;;;
    ret LatexExit
  else
    print "------------------" ;;;
    print ("Initial code generated by ChatGPT:" +:+ nl +:+ " " +:+ code) ;;;
    print "------------------" ;;;
    save_code_to_file code (code_type args) 0 "initial" ;;;
    r <- for_loop args (range1 (iterations args)) (mkLoop code None) ;;
    let '(mkLoop code _, how) := r in
    save_code_to_file code (code_type args) (iterations args) "final" ;;;
    let ext := ext_of (code_type args) in
    print ("Final version saved to ./scripts/script_final." +:+ ext) ;;;
    ret (FinalExit how).

Definition main (args : Args) : M exit_point :=
  if negb (truthy (prompt args)) && negb (truthy (modify args)) then usage
  else
    code <- startup args ;;
    debug_and_save args code.

(** ** Reading the log *)

(** What a computation adds to the log of the world it starts in. *)
Definition events_of {A} (m : M A) (w : World) : list event :=
  drop (length (log w)) (log (snd (m w))).

(** The chat requests made, oldest first, as (user message, reply). *)
Definition requests (l : list event) : list (string * string) :=
  omap (fun e => match e with EvRequest _ _ user reply => Some (user, reply) | _ => None end) l.

Definition user_messages (l : list event) : list string := fst <$> requests l.

(** The code each chat request yielded, for a given code type. *)
Definition generated (code_type : string) (l : list event) : list string :=
  (fun ur => extract_code (snd ur) code_type) <$> requests l.

(** The code handed to [exec], with what came of it. *)
Definition executed (l : list event) : list (string * ExecOutcome) :=
  omap (fun e => match e with EvExec c o => Some (c, o) | _ => None end) l.

(** The files written, as (path, text). *)
Definition written (l : list event) : list (string * string) :=
  omap (fun e => match e with EvWrite p t => Some (p, t) | _ => None end) l.

(** The instruction [call_chatgpt] puts in front of every prompt. *)
Definition instruction (code_type : string) : string :=
  "Implement a " +:+ code_type +:+ " script in a single code block to perform this task: ".

(** A user message asking for a repair of some code after some error. *)
Definition is_repair_request (args : Args) (user : string) : Prop :=
  exists code error,
    user = instruction (code_type args) +:+ repair_prompt (fmt (prompt args)) code error.

(** The path of the artifact saved in iteration [i]. *)
Definition iteration_path (code_type : string) (i : Z) : string :=
  script_path ("iteration_" +:+ pretty i) code_type.

(** No two neighbours of the list are equal. *)
Fixpoint no_repeat (l : list string) : Prop :=
  match l with
  | a :: (b :: _) as l' => a ≠ b ∧ no_repeat l'
  | _ => True
  end.

(** The errors [errs], met in this order after [last], never stop the loop:
    none repeats the one before it. *)
Definition fresh_errors (last : option string) (errs : list string) : Prop :=
  no_repeat (option_list last ++ errs).

(** ** Progress of the world *)

(** [advances w w' d]: the world went from [w] to [w'] by adding [d] to the
    log, taking one reply per request and one outcome per [exec] off the
    tapes, and storing the files written. *)
Definition advances (w w' : World) (d : list event) : Prop :=
  log w' = log w ++ d ∧
  llm w' = drop (length (requests d)) (llm w) ∧
  execs w' = drop (length (executed d)) (execs w) ∧
  files w' = foldl (fun m pt => <[pt.1 := pt.2]> m) (files w) (written d).

(** ** Sample runs *)

(** A reply that wraps [code] in a fenced block tagged [tag]. *)
Definition fenced_reply (tag code : string) : string :=
  "Here you go:" +:+ nl +:+ "```" +:+ tag +:+ nl +:+ code +:+ nl +:+ "```" +:+ nl.

(** A world with a key file, a code file and a prompt file, in which the
    user will type [typed], the model will send [replies] and the
    executions will end as [outcomes] say. *)
Definition sample_world (typed replies : list string) (outcomes : list ExecOutcome) : World :=
  mkWorld {[ "api_key.txt" := "sk-test" +:+ nl;
             "existing.py" := "x = 1";
             "task.txt" := "print hello" ]}
    ∅ typed replies outcomes None [].

Definition modify_args : Args := mkArgs None (Some "existing.py") "python" 5.
Definition prompt_file_args : Args := mkArgs (Some "task.txt") None "python" 5.
Definition inline_args (code_type : string) (iterations : Z) : Args :=
  mkArgs (Some "say hello") None code_type iterations.

(** Three attempts at the same script, and the errors the first two raise. *)
Definition attempt1 : string := fenced_reply "python" "print(hello)".
Definition attempt2 : string := fenced_reply "python" "print(Hello)".
Definition attempt3 : string := fenced_reply "python" "print('hello')".
Definition error1 : string := "name 'hello' is not defined".
Definition error2 : string := "name 'Hello' is not defined".

(** Modify mode: the user types a description, the model answers once. *)
Definition modify_world : World :=
  sample_world ["add a docstring"] [fenced_reply "python" "x = 2"] [ExecOk].

(** The first code fails, the repaired code runs. *)
Definition repaired_world : World :=
  sample_world ["add a docstring"] [attempt1; attempt3] [ExecRaises error1; ExecOk].

(** The first code runs. *)
Definition success_world : World := sample_world [] [attempt3] [ExecOk].

(** The repaired code fails with the error of the first code. *)
Definition stagnant_world : World :=
  sample_world [] [attempt1; attempt2; attempt3] [ExecRaises error1; ExecRaises error1; ExecOk].

(** Every code fails, each with an error of its own. *)
Definition failing_world : World :=
  sample_world [] [attempt1; attempt2; attempt3] [ExecRaises error1; ExecRaises error2].

Definition html_world : World := sample_world [] [fenced_reply "html" "<p>hello</p>"] [].
Definition latex_world : World := sample_world [] [fenced_reply "latex" "\section{Hello}"] [].

(** ** Vocabulary of the run-wide properties *)

(** The paths [save_code_to_file] writes to all start like this. *)
Definition under_scripts (path : string) : bool :=
  PyStr.starts_with "./scripts/script_" path.

(** [within ct nreq nexec w w']: the world went from [w] to [w'] by at most
    [nreq] requests, each opening with the instruction for [ct], at most
    [nexec] executions, and writes under [./scripts/script_] only. *)
Definition within (ct : string) (nreq nexec : nat) (w w' : World) : Prop :=
  exists d,
    advances w w' d ∧
    (length (requests d) <= nreq)%nat ∧
    (length (executed d) <= nexec)%nat ∧
    Forall (fun pt => under_scripts pt.1 = true) (written d) ∧
    Forall (fun ur => PyStr.starts_with (instruction ct) ur.1 = true) (requests d).




(** The user message [debug_code_with_chatgpt] sends for an execution that
    raised; an execution that did not raise has none. *)
Definition repair_request (args : Args) (run : string * ExecOutcome) : option string :=
  match run.2 with
  | ExecRaises error =>
      Some (instruction (code_type args) +:+ repair_prompt (fmt (prompt args)) run.1 error)
  | _ => None
  end.

(** The same command line with another [--modify]. *)
Definition with_modify (args : Args) (m : option string) : Args :=
  mkArgs (prompt args) m (code_type args) (iterations args).

(** * Properties *)

(** ** Strings *)

Module PyStrFacts.
Import PyStr.

Lemma app_cons a s t : String a s +:+ t = String a (s +:+ t).
Proof. reflexivity. Qed.

Lemma app_empty s : "" +:+ s = s.
Proof. reflexivity. Qed.

Lemma app_assoc s t u : (s +:+ t) +:+ u = s +:+ t +:+ u.
Proof. induction s as [|a s IH]; [done|]. by rewrite !app_cons, IH. Qed.

Lemma length_app s t : String.length (s +:+ t) = (String.length s + String.length t)%nat.
Proof. induction s as [|a s IH]; [done|]. rewrite app_cons. simpl. by rewrite IH. Qed.

Lemma len_nonneg s : 0 <= len s.
Proof. unfold len. lia. Qed.

Lemma drop_app s t : drop (String.length s) (s +:+ t) = t.
Proof. induction s as [|a s IH]; [by destruct t|]. by rewrite app_cons. Qed.

Lemma take_app s t : take (String.length s) (s +:+ t) = s.
Proof. induction s as [|a s IH]; [by destruct t|]. rewrite app_cons. simpl. by rewrite IH. Qed.

Lemma starts_with_app sub rest : starts_with sub (sub +:+ rest) = true.
Proof.
  induction sub as [|a sub IH]; [done|].
  rewrite app_cons. simpl. by rewrite Ascii.eqb_refl.
Qed.

(** Whether [sub] starts [pre +:+ t] is decided inside [pre] once [pre] is
    at least as long as [sub]. *)
Lemma starts_with_app_long sub pre t :
  (String.length sub <= String.length pre)%nat ->
  starts_with sub (pre +:+ t) = starts_with sub pre.
Proof.
  revert pre. induction sub as [|a sub IH]; intros pre Hl; [done|].
  destruct pre as [|b pre]; simpl in Hl; [lia|].
  rewrite app_cons. simpl. destruct (Ascii.eqb a b); [|done].
  apply IH. lia.
Qed.

(** The first occurrence is where [sub] starts, if it starts nowhere
    before. *)
Lemma first_occurrence_at sub pre rest :
  (forall i, (i < String.length pre)%nat ->
             starts_with sub (drop i (pre +:+ sub +:+ rest)) = false) ->
  first_occurrence sub (pre +:+ sub +:+ rest) = Some (String.length pre).
Proof.
  induction pre as [|a pre IH]; intros Hno.
  - rewrite app_empty. destruct (sub +:+ rest) eqn:E; simpl;
      rewrite <- ?E, starts_with_app; done.
  - rewrite app_cons.
    assert (H0 := Hno 0%nat ltac:(simpl; lia)). rewrite app_cons in H0. simpl in H0.
    cbn [first_occurrence]. rewrite H0. rewrite IH; [done|].
    intros i Hi. apply (Hno (S i)). simpl. lia.
Qed.

Lemma find_0 s sub :
  find s sub 0 = match first_occurrence sub s with
                 | Some i => Z.of_nat i
                 | None => -1
                 end.
Proof.
  unfold find. simpl. pose proof (len_nonneg s).
  destruct (len s <? 0) eqn:E; [lia|]. done.
Qed.

Lemma find_at s sub (n : nat) :
  (n <= String.length s)%nat ->
  find s sub (Z.of_nat n) = match first_occurrence sub (drop n s) with
                            | Some i => Z.of_nat n + Z.of_nat i
                            | None => -1
                            end.
Proof.
  intros Hn. unfold find, len.
  destruct (Z.of_nat n <? 0) eqn:E1; [lia|].
  destruct (Z.of_nat (String.length s) <? Z.of_nat n) eqn:E2; [lia|].
  by rewrite Nat2Z.id.
Qed.

Lemma slice_between s (lo hi : nat) :
  (lo <= hi)%nat -> (hi <= String.length s)%nat ->
  slice s (Z.of_nat lo) (Z.of_nat hi) = take (hi - lo) (drop lo s).
Proof.
  intros H1 H2. unfold slice, clamp, len.
  destruct (Z.of_nat lo <? 0) eqn:E1; [lia|].
  destruct (Z.of_nat hi <? 0) eqn:E2; [lia|].
  rewrite !Z.min_l by lia. rewrite Nat2Z.id.
  by replace (Z.to_nat (Z.of_nat hi - Z.of_nat lo)) with (hi - lo)%nat by lia.
Qed.

End PyStrFacts.

(** ** [extract_code] *)

Section Extraction.
Import PyStr PyStrFacts.

(** The opening tag of a Python block, character by character. *)
Lemma python_tag_chars :
  fence +:+ "python" +:+ nl =
  String "`" (String "`" (String "`" (String "p" (String "y" (String "t"
    (String "h" (String "o" (String "n" (String "010" ""))))))))).
Proof. reflexivity. Qed.

(** The Python opening tag cannot start inside a text and run over its end
    into a following copy of itself. *)
Lemma python_tag_no_straddle pre rest :
  pre ≠ "" -> (String.length pre < 10)%nat ->
  starts_with (fence +:+ "python" +:+ nl) (pre +:+ (fence +:+ "python" +:+ nl) +:+ rest) = false.
Proof.
  intros Hne Hl. rewrite python_tag_chars.
  destruct (starts_with _ _) eqn:H; [exfalso|done].
  revert Hne Hl H.
  do 10 (destruct pre as [|? pre];
         [intros Hne Hl H; try done;
          rewrite ?app_cons, ?app_empty in H; cbn [starts_with] in H;
          repeat match type of H with
                 | context [Ascii.eqb ?a ?b] =>
                     destruct (Ascii.eqb_spec a b) as [Heq|Hneq];
                     [try discriminate Heq; try subst; try clear Heq|cbv iota in H; discriminate H];
                     cbn [starts_with] in H
                 end|]).
  intros _ Hl. simpl in Hl. lia.
Qed.

Lemma python_tag_first pre rest :
  contains pre (fence +:+ "python" +:+ nl) = false ->
  first_occurrence (fence +:+ "python" +:+ nl) (pre +:+ (fence +:+ "python" +:+ nl) +:+ rest)
  = Some (String.length pre).
Proof.
  unfold contains. rewrite bool_decide_eq_false, <- eq_None_not_Some.
  set (tag := fence +:+ "python" +:+ nl).
  induction pre as [|a pre IH]; intros Hnone.
  - apply (first_occurrence_at _ "" rest). simpl. lia.
  - cbn [first_occurrence] in Hnone.
    destruct (starts_with _ (String a pre)) eqn:Hs; [done|].
    destruct (first_occurrence _ pre) eqn:Hf; [done|].
    assert (starts_with tag (String a pre +:+ tag +:+ rest) = false) as Hs'.
    { destruct (le_lt_dec 10 (String.length (String a pre))) as [Hl|Hl].
      - by rewrite starts_with_app_long.
      - by apply python_tag_no_straddle. }
    rewrite app_cons in Hs' |- *. cbn [first_occurrence]. rewrite Hs', IH; done.
Qed.

(** The block between the first opening tag and the next closing fence. *)
Lemma extract_code_block pre body post code_type :
  first_occurrence (fence +:+ code_type +:+ nl)
    (pre +:+ (fence +:+ code_type +:+ nl) +:+ body +:+ (nl +:+ fence) +:+ post)
  = Some (String.length pre) ->
  first_occurrence (nl +:+ fence) (body +:+ (nl +:+ fence) +:+ post)
  = Some (String.length body) ->
  extract_code (pre +:+ (fence +:+ code_type +:+ nl) +:+ body +:+ (nl +:+ fence) +:+ post)
    code_type = body.
Proof.
  intros Hopen Hclose. unfold extract_code.
  set (tag := fence +:+ code_type +:+ nl) in *.
  set (content := pre +:+ tag +:+ body +:+ (nl +:+ fence) +:+ post).
  rewrite find_0. fold content in Hopen. rewrite Hopen.
  assert (Hlen : String.length content
                 = (String.length pre + String.length tag
                    + String.length (body +:+ (nl +:+ fence) +:+ post))%nat).
  { unfold content. rewrite !length_app. lia. }
  assert (Hdrop : drop (String.length pre + String.length tag) content
                  = body +:+ (nl +:+ fence) +:+ post).
  { unfold content. rewrite <- (app_assoc pre tag), <- length_app. apply drop_app. }
  replace (Z.of_nat (String.length pre) + len tag)
    with (Z.of_nat (String.length pre + String.length tag)) by (unfold len; lia).
  rewrite find_at by lia. rewrite Hdrop, Hclose.
  rewrite <- Nat2Z.inj_add.
  rewrite slice_between; [|lia|rewrite Hlen, length_app; lia].
  rewrite Hdrop.
  replace (String.length pre + String.length tag + String.length body
           - (String.length pre + String.length tag))%nat
    with (String.length body) by lia.
  apply take_app.
Qed.

(** C9.  A response that embeds a Python block holding [print(1)] in prose
    with no opening tag of its own yields exactly [print(1)].  In general,
    when the first opening tag for [code_type] sits after [pre] and the
    next closing fence after [body], extraction returns [body], the text
    strictly between the two. *)
Theorem extract_code_round_trip :
  (forall pre post,
      contains pre ("```python" +:+ nl) = false ->
      extract_code (pre +:+ "```python" +:+ nl +:+ "print(1)" +:+ nl +:+ "```" +:+ post)
        "python" = "print(1)")
  /\
  (forall pre body post code_type,
      (forall i, (i < String.length pre)%nat ->
                 starts_with ("```" +:+ code_type +:+ nl)
                   (drop i (pre +:+ ("```" +:+ code_type +:+ nl) +:+ body
                            +:+ nl +:+ "```" +:+ post)) = false) ->
      (forall i, (i < String.length body)%nat ->
                 starts_with (nl +:+ "```") (drop i (body +:+ nl +:+ "```" +:+ post)) = false) ->
      extract_code (pre +:+ ("```" +:+ code_type +:+ nl) +:+ body +:+ nl +:+ "```" +:+ post)
        code_type = body).
Proof.
  split.
  - intros pre post Hpre.
    change (extract_code (pre +:+ (fence +:+ "python" +:+ nl) +:+ "print(1)"
                          +:+ (nl +:+ fence) +:+ post) "python" = "print(1)").
    apply extract_code_block; [|reflexivity].
    apply python_tag_first. exact Hpre.
  - intros pre body post code_type Hopen Hclose.
    change (extract_code (pre +:+ (fence +:+ code_type +:+ nl) +:+ body
                          +:+ (nl +:+ fence) +:+ post) code_type = body).
    apply extract_code_block.
    + apply first_occurrence_at. exact Hopen.
    + apply first_occurrence_at. exact Hclose.
Qed.

Lemma extract_code_round_trip_witness :
  extract_code ("Here you go:" +:+ nl +:+ "```python" +:+ nl +:+ "print(1)" +:+ nl +:+ "```"
                +:+ nl +:+ "Enjoy.") "python" = "print(1)"
  /\ extract_code ("<p>" +:+ "```html" +:+ nl +:+ "<b>hi</b>" +:+ nl +:+ "```" +:+ "</p>") "html"
     = "<b>hi</b>".
Proof.
  split.
  - apply (proj1 extract_code_round_trip ("Here you go:" +:+ nl) (nl +:+ "Enjoy.")).
    reflexivity.
  - apply (proj2 extract_code_round_trip "<p>" "<b>hi</b>" "</p>" "html").
    + intros i Hi. simpl in Hi.
      do 3 (destruct i as [|i]; [reflexivity|]). lia.
    + intros i Hi. simpl in Hi.
      do 9 (destruct i as [|i]; [reflexivity|]). lia.
Defined.

(** C3.  When the opening tag is nowhere in the response, [find] answers
    [-1] and [extract_code] still returns a slice of the response, the one
    that starts one character before the length of the tag; nothing is
    raised. *)
Theorem extract_code_tag_absent content code_type :
  contains content (fence +:+ code_type +:+ nl) = false ->
  extract_code content code_type
  = slice content (len (fence +:+ code_type +:+ nl) - 1)
      (find content (nl +:+ fence) (len (fence +:+ code_type +:+ nl) - 1)).
Proof.
  unfold contains. rewrite bool_decide_eq_false, <- eq_None_not_Some. intros Hnone.
  unfold extract_code. rewrite find_0, Hnone.
  by replace (-1 + len (fence +:+ code_type +:+ nl))
    with (len (fence +:+ code_type +:+ nl) - 1) by lia.
Qed.

Lemma extract_code_tag_absent_witness :
  contains "no code here" (fence +:+ "python" +:+ nl) = false
  /\ extract_code "no code here" "python" = "er".
Proof.
  split; [reflexivity|].
  rewrite (extract_code_tag_absent "no code here" "python"); reflexivity.
Defined.

End Extraction.

(** ** How the primitive actions move the world *)

(** Reduce the projections of explicit worlds, and nothing else. *)
Ltac world_simpl :=
  cbn [emit files dirs stdin llm execs api_key log fst snd tail].

Section Frames.

Lemma requests_app l1 l2 : requests (l1 ++ l2) = requests l1 ++ requests l2.
Proof. apply omap_app. Qed.

Lemma executed_app l1 l2 : executed (l1 ++ l2) = executed l1 ++ executed l2.
Proof. apply omap_app. Qed.

Lemma written_app l1 l2 : written (l1 ++ l2) = written l1 ++ written l2.
Proof. apply omap_app. Qed.

Lemma generated_app ct l1 l2 : generated ct (l1 ++ l2) = generated ct l1 ++ generated ct l2.
Proof. unfold generated. by rewrite requests_app, fmap_app. Qed.

Lemma user_messages_app l1 l2 :
  user_messages (l1 ++ l2) = user_messages l1 ++ user_messages l2.
Proof. unfold user_messages. by rewrite requests_app, fmap_app. Qed.

Lemma advances_refl w : advances w w [].
Proof. unfold advances. simpl. by rewrite app_nil_r. Qed.

Lemma advances_trans w1 w2 w3 d1 d2 :
  advances w1 w2 d1 -> advances w2 w3 d2 -> advances w1 w3 (d1 ++ d2).
Proof.
  intros (L1 & R1 & E1 & F1) (L2 & R2 & E2 & F2). unfold advances.
  rewrite requests_app, executed_app, written_app, !length_app, foldl_app.
  rewrite L2, L1, R2, R1, E2, E1, F2, F1, !drop_drop, <- app_assoc. done.
Qed.

Lemma events_of_advances {A} (m : M A) w r w' d :
  m w = (r, w') -> advances w w' d -> events_of m w = d.
Proof.
  intros Hm (L & _). unfold events_of. rewrite Hm. simpl.
  by rewrite L, drop_app_length.
Qed.

Lemma bind_ok {A B} (m : M A) (k : A -> M B) w a w1 :
  m w = (Ok a, w1) -> bind m k w = k a w1.
Proof. unfold bind. by intros ->. Qed.

Lemma bind_ok_inv {A B} (m : M A) (k : A -> M B) w b w2 :
  bind m k w = (Ok b, w2) -> exists a w1, m w = (Ok a, w1) ∧ k a w1 = (Ok b, w2).
Proof.
  unfold bind. destruct (m w) as [[a|e] w1]; [|done]. intros H. by exists a, w1.
Qed.

Lemma save_code_to_file_advances code ct i status w :
  exists w' d,
    save_code_to_file code ct i status w = (Ok tt, w') ∧ advances w w' d ∧
    requests d = [] ∧ executed d = [] ∧ written d = [(script_path status ct, code)].
Proof.
  unfold save_code_to_file, bind, path_exists, makedirs, write_file, ret.
  destruct (negb _).
  - eexists _, [EvMkdir "./scripts"; EvWrite _ code]. split; [reflexivity|].
    unfold advances, script_path. simpl. by rewrite <- app_assoc.
  - eexists _, [EvWrite _ code]. split; [reflexivity|].
    by unfold advances, script_path.
Qed.

End Frames.

(** ** One pass through the loop body *)

Section Iteration.
Variable args : Args.

Local Ltac run_save E A :=
  match goal with
  | |- context [save_code_to_file ?c ?ct ?i ?s ?w] =>
      let w' := fresh "w" in
      let d := fresh "d" in
      destruct (save_code_to_file_advances c ct i s w) as (w' & d & E & A);
      rewrite E
  end.

Lemma iteration_not_executable i st w :
  code_type args ≠ "python" ->
  exists w' d,
    iteration args i st w = (Ok (st, Some NotExecutable), w') ∧ advances w w' d ∧
    requests d = [] ∧ executed d = [] ∧ written d = [].
Proof.
  intros Hct. unfold iteration, bind, try_except, print, ret.
  rewrite bool_decide_eq_false_2 by done.
  eexists _, [EvPrint _; EvPrint _]. split; [reflexivity|].
  unfold advances. simpl. by rewrite <- app_assoc.
Qed.

Lemma iteration_success i st w rest :
  code_type args = "python" -> execs w = ExecOk :: rest ->
  exists w' d,
    iteration args i st w = (Ok (st, Some ExecutedOk), w') ∧ advances w w' d ∧
    requests d = [] ∧ executed d = [(code st, ExecOk)] ∧
    written d = [(script_path "debugged" (code_type args), code st)].
Proof.
  intros Hct Hex. unfold iteration, bind, try_except, print, exec, ret.
  rewrite bool_decide_eq_true_2 by done. world_simpl. rewrite Hex. world_simpl.
  run_save E A. destruct A as (A & HR & HE & HW).
  simpl. eexists _, ([EvPrint _; EvExec _ _; EvPrint _] ++ d ++ [EvPrint _]).
  split; [reflexivity|]. split.
  - eapply advances_trans; [|eapply advances_trans; [exact A|]].
    + unfold advances. simpl. rewrite Hex. by rewrite <- !app_assoc.
    + by unfold advances.
  - by rewrite !requests_app, !executed_app, !written_app, HR, HE, HW.
Qed.

Lemma iteration_same_error i st w error rest :
  code_type args = "python" -> execs w = ExecRaises error :: rest ->
  last_error_message st = Some error ->
  exists w' d,
    iteration args i st w = (Ok (st, Some SameError), w') ∧ advances w w' d ∧
    requests d = [] ∧ executed d = [(code st, ExecRaises error)] ∧ written d = [].
Proof.
  intros Hct Hex Hlast. unfold iteration, bind, try_except, print, exec, ret.
  rewrite bool_decide_eq_true_2 by done. world_simpl. rewrite Hex. world_simpl.
  rewrite bool_decide_eq_true_2 by done.
  eexists _, [EvPrint _; EvExec _ _; EvPrint _; EvPrint _]. split; [reflexivity|].
  unfold advances. simpl. rewrite Hex. by rewrite <- !app_assoc.
Qed.

Lemma iteration_repair i st w error rest reply replies :
  code_type args = "python" -> execs w = ExecRaises error :: rest ->
  last_error_message st ≠ Some error -> llm w = reply :: replies ->
  exists w' d,
    iteration args i st w
    = (Ok (mkLoop (extract_code reply (code_type args)) (Some error), None), w') ∧
    advances w w' d ∧
    requests d = [(instruction (code_type args)
                   +:+ repair_prompt (fmt (prompt args)) (code st) error, reply)] ∧
    executed d = [(code st, ExecRaises error)] ∧
    written d = [(iteration_path (code_type args) i, extract_code reply (code_type args))].
Proof.
  intros Hct Hex Hlast Hllm.
  unfold iteration, bind, try_except, print, exec, ret, debug_code_with_chatgpt,
    call_chatgpt, chat_completions_create.
  rewrite bool_decide_eq_true_2 by done. world_simpl. rewrite Hex. world_simpl.
  rewrite bool_decide_eq_false_2 by congruence. rewrite Hllm.
  unfold bind, ret. world_simpl.
  run_save E A. destruct A as (A & HR & HE & HW).
  eexists _, ([EvPrint _; EvExec _ _; EvPrint _; EvRequest _ _ _ _; EvPrint _; EvPrint _;
               EvPrint _] ++ d).
  split; [reflexivity|]. split.
  - eapply advances_trans; [|exact A].
    unfold advances. simpl. rewrite Hex, Hllm. by rewrite <- !app_assoc.
  - by rewrite !requests_app, !executed_app, !written_app, HR, HE, HW.
Qed.

End Iteration.

(** ** The loop *)

Section Loop.
Variable args : Args.

Lemma fresh_errors_cons last e errs :
  fresh_errors last (e :: errs) -> last ≠ Some e ∧ fresh_errors (Some e) errs.
Proof.
  unfold fresh_errors. destruct last as [l|]; simpl.
  - intros [Hne H]. split; [congruence|done].
  - intros H. split; [done|done].
Qed.

Lemma default_last_cons {A} (x y : A) l : default x (last (y :: l)) = default y (last l).
Proof. rewrite last_cons. by destruct (last l). Qed.

Lemma range1_split (k : nat) (n : Z) :
  Z.of_nat k < n ->
  exists more, range1 n = (Z.of_nat <$> seq 1 k) ++ (Z.of_nat k + 1) :: more.
Proof.
  intros Hk. unfold range1.
  replace (Z.to_nat n) with (k + S (Z.to_nat n - S k))%nat by lia.
  rewrite seq_app, fmap_app. simpl. eexists. do 2 f_equal. lia.
Qed.

(** A run of failures with fresh errors, each answered by the model, takes
    the loop through as many indices, one repair per index. *)
Lemma for_loop_repairs errs :
  code_type args = "python" ->
  forall replies indices more st w execs_rest llm_rest,
    length replies = length errs -> length indices = length errs ->
    fresh_errors (last_error_message st) errs ->
    execs w = (ExecRaises <$> errs) ++ execs_rest ->
    llm w = replies ++ llm_rest ->
    let codes : list string := (fun r => extract_code r (code_type args)) <$> replies in
    exists w' d,
      for_loop args (indices ++ more) st w
      = for_loop args more
          (mkLoop (default (code st) (last codes))
             (from_option Some (last_error_message st) (last errs))) w' ∧
      advances w w' d ∧ execs w' = execs_rest ∧ llm w' = llm_rest ∧
      generated (code_type args) d = codes ∧
      Forall (is_repair_request args) (user_messages d) ∧
      (executed d).*2 = ExecRaises <$> errs ∧
      written d = zip_with (fun i c => (iteration_path (code_type args) i, c)) indices codes.
Proof.
  intros Hct. induction errs as [|e errs IH];
    intros replies indices more st w execs_rest llm_rest Hlr Hli Hfresh Hex Hllm codes.
  - destruct replies; [|done]. destruct indices; [|done]. simpl in *.
    exists w, []. destruct st. repeat split; try done. apply advances_refl.
  - destruct replies as [|r replies]; [done|]. destruct indices as [|i indices]; [done|].
    simpl in Hlr, Hli, Hex, Hllm.
    apply fresh_errors_cons in Hfresh as [Hne Hfresh].
    destruct (iteration_repair args i st w e _ r _ Hct Hex Hne Hllm)
      as (w1 & d1 & E1 & A1 & R1 & X1 & W1).
    assert (Hex1 : execs w1 = (ExecRaises <$> errs) ++ execs_rest).
    { destruct A1 as (_ & _ & -> & _). by rewrite X1, Hex. }
    assert (Hllm1 : llm w1 = replies ++ llm_rest).
    { destruct A1 as (_ & -> & _ & _). by rewrite R1, Hllm. }
    destruct (IH replies indices more
                (mkLoop (extract_code r (code_type args)) (Some e)) w1 execs_rest llm_rest)
      as (w2 & d2 & E2 & A2 & Hex2 & Hllm2 & G2 & U2 & X2 & W2);
      [lia|lia|done|done|done|].
    exists w2, (d1 ++ d2). split; [|split; [by eapply advances_trans|]].
    + simpl. rewrite (bind_ok _ _ _ _ _ E1). rewrite E2. f_equal. f_equal.
      * subst codes. rewrite fmap_cons. by rewrite default_last_cons.
      * simpl. rewrite last_cons. by destruct (last errs).
    + rewrite generated_app, user_messages_app, executed_app, written_app, fmap_app.
      rewrite G2, X2, W2, W1, X1. unfold generated, user_messages. rewrite R1.
      repeat split; try done.
      apply Forall_app. split; [|done].
      apply Forall_singleton. by eexists _, _.
Qed.

End Loop.

Section LoopInvariant.
Variable args : Args.

(** Whatever a pass through the body does, if it returns then the code it
    leaves is the last code generated during the pass, or the code it
    started with when nothing was generated. *)
Lemma iteration_keeps_last_generated i st w st' b w' :
  iteration args i st w = (Ok (st', b), w') ->
  exists d, advances w w' d ∧
            code st' = default (code st) (last (generated (code_type args) d)).
Proof.
  intros H. destruct (decide (code_type args = "python")) as [Hct|Hct].
  - destruct (execs w) as [|[|e|] rest] eqn:Hex.
    + exfalso. revert H. unfold iteration, bind, try_except, print, exec, ret.
      rewrite bool_decide_eq_true_2 by done. world_simpl. by rewrite Hex.
    + destruct (iteration_success args i st w rest Hct Hex) as (w1 & d & E & A & R & _).
      rewrite E in H. simplify_eq. exists d. split; [done|].
      unfold generated. by rewrite R.
    + destruct (decide (last_error_message st = Some e)) as [Hl|Hl].
      * destruct (iteration_same_error args i st w e rest Hct Hex Hl)
          as (w1 & d & E & A & R & _).
        rewrite E in H. simplify_eq. exists d. split; [done|].
        unfold generated. by rewrite R.
      * destruct (llm w) as [|r replies] eqn:Hllm.
        -- exfalso. revert H.
           unfold iteration, bind, try_except, print, exec, ret, debug_code_with_chatgpt,
             call_chatgpt, chat_completions_create.
           rewrite bool_decide_eq_true_2 by done. world_simpl. rewrite Hex. world_simpl.
           rewrite bool_decide_eq_false_2 by congruence. unfold bind. world_simpl.
           by rewrite Hllm.
        -- destruct (iteration_repair args i st w e rest r replies Hct Hex Hl Hllm)
             as (w1 & d & E & A & R & _).
           rewrite E in H. simplify_eq. exists d. split; [done|].
           unfold generated. by rewrite R.
    + exfalso. revert H. unfold iteration, bind, try_except, print, exec, ret.
      rewrite bool_decide_eq_true_2 by done. world_simpl. by rewrite Hex.
  - destruct (iteration_not_executable args i st w Hct) as (w1 & d & E & A & R & _).
    rewrite E in H. simplify_eq. exists d. split; [done|].
    unfold generated. by rewrite R.
Qed.

Lemma for_loop_keeps_last_generated indices :
  forall st w st' how w',
    for_loop args indices st w = (Ok (st', how), w') ->
    exists d, advances w w' d ∧
              code st' = default (code st) (last (generated (code_type args) d)).
Proof.
  induction indices as [|i indices IH]; intros st w st' how w' H.
  - simpl in H. unfold ret in H. simplify_eq. exists []. split; [apply advances_refl|done].
  - simpl in H. apply bind_ok_inv in H as ([st1 b] & w1 & E1 & H).
    apply iteration_keeps_last_generated in E1 as (d1 & A1 & C1).
    destruct b as [site|].
    + unfold ret in H. simplify_eq. by exists d1.
    + apply IH in H as (d2 & A2 & C2). exists (d1 ++ d2).
      split; [by eapply advances_trans|].
      rewrite generated_app, C2, C1, last_app.
      by destruct (last (generated _ d2)).
Qed.

End LoopInvariant.

(** ** The phases of [main] *)

Section Phases.
Variable args : Args.

(** A start-up that returns has made one request and nothing else that
    matters later: no [exec], no file written. *)
Lemma startup_returns w code0 w0 :
  startup args w = (Ok code0, w0) ->
  exists d user reply,
    advances w w0 d ∧ requests d = [(user, reply)] ∧
    code0 = extract_code reply (code_type args) ∧ executed d = [] ∧ written d = [] ∧
    negb (truthy (prompt args)) && negb (truthy (modify args)) = false.
Proof.
  unfold startup, read_api_key, initial_code, call_chatgpt, chat_completions_create,
    read_file, isfile, input, set_api_key, raise, bind, ret.
  intros H. cbn [emit files llm log fst snd] in H.
  repeat (case_match; simplify_eq; cbn [emit files llm log fst snd] in * );
    match goal with
    | Hl : llm _ = ?r :: _ |- _ =>
        eexists _, _, r; split;
        [unfold advances; world_simpl; rewrite <- ?app_assoc;
         split; [reflexivity|]; simpl; rewrite ?Hl; done
        |simpl; repeat split; try done]
    end; by rewrite ?andb_false_r.
Qed.

Lemma main_after_startup w code0 w0 :
  startup args w = (Ok code0, w0) -> main args w = debug_and_save args code0 w0.
Proof.
  intros H. destruct (startup_returns _ _ _ H) as (_ & _ & _ & _ & _ & _ & _ & _ & Ht).
  unfold main. rewrite Ht. by apply bind_ok.
Qed.

Lemma debug_and_save_latex code0 w0 :
  code_type args = "latex" ->
  exists w1 d,
    debug_and_save args code0 w0 = (Ok LatexExit, w1) ∧ advances w0 w1 d ∧
    requests d = [] ∧ executed d = [] ∧
    written d = [(script_path "initial" (code_type args), code0)].
Proof.
  intros Hct. unfold debug_and_save. rewrite bool_decide_eq_true_2 by done.
  destruct (save_code_to_file_advances code0 (code_type args) 0 "initial" w0)
    as (w1 & d & E & A & R & X & W).
  rewrite (bind_ok _ _ _ _ _ E). unfold bind, print, ret.
  eexists _, (d ++ [EvPrint _]). split; [reflexivity|]. split.
  - eapply advances_trans; [exact A|]. by unfold advances.
  - by rewrite requests_app, executed_app, written_app, R, X, W.
Qed.

(** Outside LaTeX, [debug_and_save] saves the first code, runs the loop and
    saves whatever code the loop leaves. *)
Lemma debug_and_save_loop code0 w0 :
  code_type args ≠ "latex" ->
  exists w1 d1,
    advances w0 w1 d1 ∧ requests d1 = [] ∧ executed d1 = [] ∧
    written d1 = [(script_path "initial" (code_type args), code0)] ∧
    (forall e w2,
        for_loop args (range1 (iterations args)) (mkLoop code0 None) w1 = (Raise e, w2) ->
        debug_and_save args code0 w0 = (Raise e, w2)) ∧
    (forall st how w2,
        for_loop args (range1 (iterations args)) (mkLoop code0 None) w1 = (Ok (st, how), w2) ->
        exists w3 d3,
          debug_and_save args code0 w0 = (Ok (FinalExit how), w3) ∧ advances w2 w3 d3 ∧
          requests d3 = [] ∧ executed d3 = [] ∧
          written d3 = [(script_path "final" (code_type args), code st)]).
Proof.
  intros Hct.
  destruct (save_code_to_file_advances code0 (code_type args) 0 "initial"
              (emit (EvPrint "------------------")
                 (emit (EvPrint ("Initial code generated by ChatGPT:" +:+ nl +:+ " " +:+ code0))
                    (emit (EvPrint "------------------") w0))))
    as (w1 & d & E & A & R & X & W).
  assert (Heq : forall k : LoopState * loop_exit -> M exit_point,
             (print "------------------" ;;;
              print ("Initial code generated by ChatGPT:" +:+ nl +:+ " " +:+ code0) ;;;
              print "------------------" ;;;
              save_code_to_file code0 (code_type args) 0 "initial" ;;;
              r <- for_loop args (range1 (iterations args)) (mkLoop code0 None) ;; k r) w0
             = bind (for_loop args (range1 (iterations args)) (mkLoop code0 None)) k w1).
  { intros k. do 3 (erewrite bind_ok; [|reflexivity]). by rewrite (bind_ok _ _ _ _ _ E). }
  unfold debug_and_save. rewrite bool_decide_eq_false_2 by done. rewrite Heq. clear Heq.
  exists w1, ([EvPrint "------------------";
               EvPrint ("Initial code generated by ChatGPT:" +:+ nl +:+ " " +:+ code0);
               EvPrint "------------------"] ++ d).
  split; [|split; [|split; [|split; [|split]]]].
  - eapply advances_trans; [|exact A]. unfold advances. world_simpl.
    by rewrite <- !app_assoc.
  - by rewrite requests_app, R.
  - by rewrite executed_app, X.
  - by rewrite written_app, W.
  - intros e w2 Hloop. unfold bind at 1. by rewrite Hloop.
  - intros [c l] how w2 Hloop. rewrite (bind_ok _ _ _ _ _ Hloop).
    destruct (save_code_to_file_advances c (code_type args) (iterations args) "final" w2)
      as (w3 & d3 & E3 & A3 & R3 & X3 & W3).
    rewrite (bind_ok _ _ _ _ _ E3). unfold bind, print, ret.
    eexists _, (d3 ++ [EvPrint _]). split; [reflexivity|]. split.
    + eapply advances_trans; [exact A3|]. by unfold advances.
    + by rewrite requests_app, executed_app, written_app, R3, X3, W3.
Qed.

Lemma advances_last_written w w' d path text :
  advances w w' d -> last (written d) = Some (path, text) -> files w' !! path = Some text.
Proof.
  intros (_ & _ & _ & ->) Hlast.
  destruct (written d) as [|x l _] using rev_ind; [done|].
  rewrite last_snoc in Hlast. simplify_eq.
  rewrite foldl_app. simpl. apply lookup_insert_eq.
Qed.

End Phases.

Section WholeRun.
Variable args : Args.

(** A run whose start-up returns and whose code type is not LaTeX is its
    start-up, the save of the first code, the loop and the save of the
    last code; what it requests, executes and writes follows from what
    the loop does. *)
Lemma main_through_loop w code0 w0 :
  startup args w = (Ok code0, w0) -> code_type args ≠ "latex" ->
  exists w1 user reply,
    code0 = extract_code reply (code_type args) ∧
    llm w1 = llm w0 ∧ execs w1 = execs w0 ∧
    (forall e w2,
        for_loop args (range1 (iterations args)) (mkLoop code0 None) w1 = (Raise e, w2) ->
        main args w = (Raise e, w2)) ∧
    (forall st how w2 dl,
        for_loop args (range1 (iterations args)) (mkLoop code0 None) w1 = (Ok (st, how), w2) ->
        advances w1 w2 dl ->
        exists w3,
          main args w = (Ok (FinalExit how), w3) ∧
          llm w3 = llm w2 ∧ execs w3 = execs w2 ∧
          files w3 !! script_path "final" (code_type args) = Some (code st) ∧
          requests (events_of (main args) w) = (user, reply) :: requests dl ∧
          executed (events_of (main args) w) = executed dl ∧
          written (events_of (main args) w)
          = (script_path "initial" (code_type args), code0) :: written dl
            ++ [(script_path "final" (code_type args), code st)]).
Proof.
  intros Hs Hct.
  destruct (startup_returns args w code0 w0 Hs) as (d0 & user & reply & A0 & R0 & -> & X0 & W0 & _).
  destruct (debug_and_save_loop args (extract_code reply (code_type args)) w0 Hct)
    as (w1 & d1 & A1 & R1 & X1 & W1 & Hraise & Hok).
  exists w1, user, reply. split; [done|].
  split; [destruct A1 as (_ & -> & _); by rewrite R1|].
  split; [destruct A1 as (_ & _ & -> & _); by rewrite X1|].
  split.
  - intros e w2 Hloop. rewrite (main_after_startup _ _ _ _ Hs). by apply Hraise.
  - intros st how w2 dl Hloop Al.
    destruct (Hok st how w2 Hloop) as (w3 & d3 & E3 & A3 & R3 & X3 & W3).
    assert (Hmain : main args w = (Ok (FinalExit how), w3)).
    { by rewrite (main_after_startup _ _ _ _ Hs). }
    assert (A : advances w w3 (d0 ++ d1 ++ dl ++ d3)).
    { repeat (eapply advances_trans; [eassumption|]). done. }
    exists w3. split; [done|].
    split; [destruct A3 as (_ & -> & _); by rewrite R3|].
    split; [destruct A3 as (_ & _ & -> & _); by rewrite X3|].
    split.
    { apply (advances_last_written w2 w3 d3); [done|]. by rewrite W3. }
    rewrite (events_of_advances _ _ _ _ _ Hmain A).
    rewrite !requests_app, !executed_app, !written_app.
    rewrite R0, R1, R3, X0, X1, X3, W0, W1, W3. simpl. by rewrite !app_nil_r.
Qed.

End WholeRun.

(** ** The properties of the specification *)

Lemma fst_zip_with_path {A B C} (f : A -> C) (l1 : list A) (l2 : list B) :
  length l1 = length l2 -> (zip_with (fun i c => (f i, c)) l1 l2).*1 = f <$> l1.
Proof.
  revert l2. induction l1 as [|a l1 IH]; intros [|b l2] Hl; simpl in *; try done.
  f_equal. apply IH. lia.
Qed.

(** C10.  [save_code_to_file] does not look at its [iteration] argument: two
    calls that differ only there do the same thing to the same world, which
    is to write [code] to [./scripts/script_<status>.<ext>], where [<ext>]
    is [py] for the code type [python] and the code type itself otherwise. *)
Theorem save_code_to_file_ignores_iteration code ct status (i j : Z) w :
  save_code_to_file code ct i status w = save_code_to_file code ct j status w ∧
  fst (save_code_to_file code ct i status w) = Ok tt ∧
  files (snd (save_code_to_file code ct i status w))
  = <["./scripts/script_" +:+ status +:+ "." +:+
      (if bool_decide (ct = "python") then "py" else ct) := code]> (files w) ∧
  written (events_of (save_code_to_file code ct i status) w)
  = [("./scripts/script_" +:+ status +:+ "." +:+
      (if bool_decide (ct = "python") then "py" else ct), code)].
Proof.
  split; [reflexivity|].
  destruct (save_code_to_file_advances code ct i status w) as (w' & d & E & A & _ & _ & W).
  rewrite (events_of_advances _ _ _ _ _ E A), E, W. simpl.
  split; [done|]. split; [|done].
  destruct A as (_ & _ & _ & ->). by rewrite W.
Qed.

(** C1.  [call_chatgpt] overwrites its [special_instructions] argument, so
    the prefix built in modify mode never reaches the model: in the sample
    run, where the file holds [x = 1], the one request made carries the
    fresh-generation prefix and the typed description, and the contents of
    the file are not in it. *)
Theorem modify_request_omits_original :
  (forall prompt ct instr1 instr2, call_chatgpt prompt ct instr1 = call_chatgpt prompt ct instr2)
  ∧ files modify_world !! "existing.py" = Some "x = 1"
  ∧ fst (main modify_args modify_world) = Ok (FinalExit (BreakAt 1 ExecutedOk))
  ∧ take 2 (events_of (main modify_args) modify_world)
    = [EvInput "Please describe the modifications you want to make: " "add a docstring";
       EvRequest "gpt-4" "You are a helpful assistant."
         "Implement a python script in a single code block to perform this task: add a docstring"
         (fenced_reply "python" "x = 2")]
  ∧ user_messages (events_of (main modify_args) modify_world)
    = ["Implement a python script in a single code block to perform this task: add a docstring"]
  ∧ Forall (fun user => PyStr.contains user "x = 1" = false)
      (user_messages (events_of (main modify_args) modify_world)).
Proof.
  split; [reflexivity|].
  vm_compute. repeat split. by apply Forall_singleton.
Qed.

(** C2.  The repair prompt is built from [args.prompt], not from the prompt
    text resolved at start-up.  With [--prompt task.txt], where the file
    holds [print hello], the repair request names [task.txt] and the text of
    the file is not in it; in modify mode, where [args.prompt] is [None],
    the repair request says [None] and the typed description is not in
    it. *)
Theorem repair_prompt_uses_raw_argument :
  files repaired_world !! "task.txt" = Some "print hello"
  ∧ user_messages (events_of (main prompt_file_args) repaired_world)
    = [instruction "python" +:+ "print hello";
       instruction "python" +:+ repair_prompt "task.txt" "print(hello)" error1]
  ∧ Forall (fun user => PyStr.contains user "print hello" = false)
      (drop 1 (user_messages (events_of (main prompt_file_args) repaired_world)))
  ∧ user_messages (events_of (main modify_args) repaired_world)
    = [instruction "python" +:+ "add a docstring";
       instruction "python" +:+ repair_prompt "None" "print(hello)" error1]
  ∧ Forall (fun user => PyStr.contains user "add a docstring" = false)
      (drop 1 (user_messages (events_of (main modify_args) repaired_world))).
Proof.
  vm_compute. repeat split; by apply Forall_singleton.
Qed.

(** C5 does not hold as stated: for the code type [html] the run makes
    one request and executes nothing, but it goes into the loop, leaves it
    at the first pass and writes two artifacts, [initial] and [final]. *)
Lemma html_run_writes_two_artifacts :
  code_type (inline_args "html" 5) ≠ "python"
  ∧ fst (main (inline_args "html" 5) html_world) = Ok (FinalExit (BreakAt 1 NotExecutable))
  ∧ written (events_of (main (inline_args "html" 5)) html_world)
    = [("./scripts/script_initial.html", "<p>hello</p>");
       ("./scripts/script_final.html", "<p>hello</p>")]
  ∧ length (written (events_of (main (inline_args "html" 5)) html_world)) ≠ 1%nat.
Proof. vm_compute. repeat split; discriminate. Qed.

(** C5, amended.  For a code type other than [python], a run whose start-up
    returns makes exactly one request and executes nothing.  For [latex] it
    writes the [initial] artifact and returns before the loop.  For any
    other type it writes the [initial] artifact, leaves the loop at its
    first pass without executing (or does not enter it when there is no
    pass to make), and writes the same code again as the [final]
    artifact. *)
Theorem non_python_run args w code0 w0 :
  code_type args ≠ "python" ->
  startup args w = (Ok code0, w0) ->
  exists w' ep,
    main args w = (Ok ep, w') ∧
    generated (code_type args) (events_of (main args) w) = [code0] ∧
    executed (events_of (main args) w) = [] ∧
    if bool_decide (code_type args = "latex") then
      ep = LatexExit ∧
      written (events_of (main args) w) = [(script_path "initial" (code_type args), code0)]
    else
      ep = FinalExit (if bool_decide (1 <= iterations args)
                      then BreakAt 1 NotExecutable else RangeExhausted) ∧
      written (events_of (main args) w)
      = [(script_path "initial" (code_type args), code0);
         (script_path "final" (code_type args), code0)].
Proof.
  intros Hpy Hs. case_bool_decide as Hlatex.
  - destruct (startup_returns args w code0 w0 Hs) as (d0 & user & reply & A0 & R0 & -> & X0 & W0 & _).
    destruct (debug_and_save_latex args (extract_code reply (code_type args)) w0 Hlatex)
      as (w1 & d1 & E1 & A1 & R1 & X1 & W1).
    assert (Hmain : main args w = (Ok LatexExit, w1)).
    { by rewrite (main_after_startup _ _ _ _ Hs). }
    exists w1, LatexExit. split; [done|].
    rewrite (events_of_advances _ _ _ _ _ Hmain (advances_trans _ _ _ _ _ A0 A1)).
    unfold generated. rewrite requests_app, executed_app, written_app.
    by rewrite R0, R1, X0, X1, W0, W1.
  - destruct (main_through_loop args w code0 w0 Hs Hlatex)
      as (w1 & user & reply & -> & _ & _ & _ & Hok).
    set (st := mkLoop (extract_code reply (code_type args)) None).
    assert (exists w2 dl,
               for_loop args (range1 (iterations args)) st w1
               = (Ok (st, if bool_decide (1 <= iterations args)
                          then BreakAt 1 NotExecutable else RangeExhausted), w2) ∧
               advances w1 w2 dl ∧ requests dl = [] ∧ executed dl = [] ∧ written dl = [])
      as (w2 & dl & Hloop & Al & Rl & Xl & Wl).
    { case_bool_decide as Hn.
      - destruct (range1_split 0 (iterations args)) as [more ->]; [simpl; lia|].
        destruct (iteration_not_executable args 1 st w1 Hpy) as (w2 & dl & E & A & R).
        exists w2, dl. split; [|done]. simpl. by rewrite (bind_ok _ _ _ _ _ E).
      - exists w1, []. split; [|split; [apply advances_refl|done]].
        unfold range1. by replace (Z.to_nat (iterations args)) with 0%nat by lia. }
    destruct (Hok _ _ _ _ Hloop Al) as (w3 & Hmain & _ & _ & _ & R & X & W).
    exists w3, (FinalExit (if bool_decide (1 <= iterations args)
                           then BreakAt 1 NotExecutable else RangeExhausted)).
    split; [done|]. unfold generated. by rewrite R, X, W, Rl, Xl, Wl.
Qed.

Lemma non_python_run_witness :
  code_type (inline_args "latex" 5) ≠ "python"
  ∧ startup (inline_args "latex" 5) latex_world
    = (Ok "\section{Hello}", snd (startup (inline_args "latex" 5) latex_world))
  ∧ exists w' ep,
      main (inline_args "latex" 5) latex_world = (Ok ep, w') ∧
      generated "latex" (events_of (main (inline_args "latex" 5)) latex_world)
      = ["\section{Hello}"] ∧
      executed (events_of (main (inline_args "latex" 5)) latex_world) = [] ∧
      ep = LatexExit ∧
      written (events_of (main (inline_args "latex" 5)) latex_world)
      = [(script_path "initial" "latex", "\section{Hello}")].
Proof.
  split; [discriminate|]. split; [by vm_compute|].
  apply (non_python_run (inline_args "latex" 5) latex_world "\section{Hello}"
           (snd (startup (inline_args "latex" 5) latex_world))).
  - discriminate.
  - by vm_compute.
Defined.

(** C6 does not hold as stated: when the first execution succeeds the
    run writes three artifacts, not two; the [final] artifact follows the
    [debugged] one. *)
Lemma first_try_success_writes_three_artifacts :
  executed (events_of (main (inline_args "python" 5)) success_world)
  = [("print('hello')", ExecOk)]
  ∧ written (events_of (main (inline_args "python" 5)) success_world)
    = [("./scripts/script_initial.py", "print('hello')");
       ("./scripts/script_debugged.py", "print('hello')");
       ("./scripts/script_final.py", "print('hello')")]
  ∧ length (written (events_of (main (inline_args "python" 5)) success_world)) ≠ 2%nat.
Proof. vm_compute. repeat split; discriminate. Qed.

(** C6, amended.  For the code type [python], if the first execution of the
    first code succeeds, the loop is left at pass 1 after that one
    execution, no repair is requested, and exactly three artifacts are
    written, all holding the first code: [initial], [debugged] and
    [final]. *)
Theorem first_try_success args w code0 w0 rest :
  code_type args = "python" ->
  startup args w = (Ok code0, w0) ->
  execs w0 = ExecOk :: rest ->
  1 <= iterations args ->
  exists w',
    main args w = (Ok (FinalExit (BreakAt 1 ExecutedOk)), w') ∧
    generated (code_type args) (events_of (main args) w) = [code0] ∧
    executed (events_of (main args) w) = [(code0, ExecOk)] ∧
    written (events_of (main args) w)
    = [(script_path "initial" "python", code0);
       (script_path "debugged" "python", code0);
       (script_path "final" "python", code0)].
Proof.
  intros Hpy Hs Hex Hn.
  destruct (main_through_loop args w code0 w0 Hs) as (w1 & user & reply & -> & _ & Hex1 & _ & Hok).
  { rewrite Hpy. discriminate. }
  set (st := mkLoop (extract_code reply (code_type args)) None).
  destruct (range1_split 0 (iterations args)) as [more Hrange]; [simpl; lia|].
  rewrite Hex in Hex1.
  destruct (iteration_success args 1 st w1 rest Hpy Hex1) as (w2 & dl & E & Al & Rl & Xl & Wl).
  assert (Hloop : for_loop args (range1 (iterations args)) st w1
                  = (Ok (st, BreakAt 1 ExecutedOk), w2)).
  { rewrite Hrange. simpl. by rewrite (bind_ok _ _ _ _ _ E). }
  destruct (Hok _ _ _ _ Hloop Al) as (w3 & Hmain & _ & _ & _ & R & X & W).
  exists w3. split; [done|]. unfold generated. rewrite R, X, W, Rl, Xl, Wl.
  subst st. simpl. by rewrite Hpy.
Qed.

Lemma first_try_success_witness :
  startup (inline_args "python" 5) success_world
  = (Ok "print('hello')", snd (startup (inline_args "python" 5) success_world))
  ∧ execs (snd (startup (inline_args "python" 5) success_world)) = ExecOk :: []
  ∧ exists w',
      main (inline_args "python" 5) success_world
      = (Ok (FinalExit (BreakAt 1 ExecutedOk)), w') ∧
      generated "python" (events_of (main (inline_args "python" 5)) success_world)
      = ["print('hello')"] ∧
      executed (events_of (main (inline_args "python" 5)) success_world)
      = [("print('hello')", ExecOk)] ∧
      written (events_of (main (inline_args "python" 5)) success_world)
      = [(script_path "initial" "python", "print('hello')");
         (script_path "debugged" "python", "print('hello')");
         (script_path "final" "python", "print('hello')")].
Proof.
  split; [by vm_compute|]. split; [by vm_compute|].
  apply (first_try_success (inline_args "python" 5) success_world "print('hello')"
           (snd (startup (inline_args "python" 5) success_world)) []).
  - reflexivity.
  - by vm_compute.
  - by vm_compute.
  - by vm_compute.
Defined.

(** C7.  A run that gets past the loop, however the loop was left and
    whatever the code type, ends by writing the [final] artifact, and that
    artifact holds the last code generated in the run. *)
Theorem final_artifact_holds_last_code args w how w' :
  main args w = (Ok (FinalExit how), w') ->
  exists c,
    last (generated (code_type args) (events_of (main args) w)) = Some c ∧
    last (written (events_of (main args) w)) = Some (script_path "final" (code_type args), c) ∧
    files w' !! script_path "final" (code_type args) = Some c.
Proof.
  intros Hmain. pose proof Hmain as H. unfold main in H.
  destruct (negb (truthy (prompt args)) && negb (truthy (modify args))).
  { unfold usage, bind, print, print_usage, ret in H. simplify_eq. }
  apply bind_ok_inv in H as (code0 & w0 & Hs & H).
  destruct (decide (code_type args = "latex")) as [Hlatex|Hlatex].
  { destruct (debug_and_save_latex args code0 w0 Hlatex) as (w1 & d & E & _).
    rewrite E in H. simplify_eq. }
  destruct (main_through_loop args w code0 w0 Hs Hlatex)
    as (w1 & user & reply & -> & _ & _ & Hraise & Hok).
  destruct (for_loop args (range1 (iterations args))
              (mkLoop (extract_code reply (code_type args)) None) w1)
    as [[[st how']|e] w2] eqn:Hloop.
  - destruct (for_loop_keeps_last_generated args _ _ _ _ _ _ Hloop) as (dl & Al & Hc).
    destruct (Hok _ _ _ _ eq_refl Al) as (w3 & Hmain' & _ & _ & Hf & R & _ & W).
    rewrite Hmain in Hmain'. simplify_eq.
    exists (code st). split; [|split; [|done]].
    + unfold generated in *. rewrite R, fmap_cons, last_cons. simpl in Hc.
      rewrite Hc. by destruct (last _).
    + rewrite W. by rewrite app_comm_cons, last_snoc.
  - rewrite (Hraise _ _ eq_refl) in Hmain. simplify_eq.
Qed.

Lemma final_artifact_holds_last_code_witness :
  main (inline_args "python" 5) repaired_world
  = (Ok (FinalExit (BreakAt 2 ExecutedOk)), snd (main (inline_args "python" 5) repaired_world))
  ∧ exists c,
      last (generated "python" (events_of (main (inline_args "python" 5)) repaired_world))
      = Some c ∧
      last (written (events_of (main (inline_args "python" 5)) repaired_world))
      = Some (script_path "final" "python", c) ∧
      files (snd (main (inline_args "python" 5) repaired_world)) !! script_path "final" "python"
      = Some c.
Proof.
  split; [by vm_compute|].
  apply (final_artifact_holds_last_code (inline_args "python" 5) repaired_world
           (BreakAt 2 ExecutedOk) (snd (main (inline_args "python" 5) repaired_world))).
  by vm_compute.
Defined.

(** C4.  For the code type [python]: let the executions of passes 1 to [k]
    fail with errors of which none repeats the one before, the model
    answering each, and let the execution of pass [k + 1] fail with the
    error of pass [k] again.  Then the loop is left at pass [k + 1]; no
    request follows the [k] repairs; the [final] artifact holds the code
    executed in pass [k + 1]; and the artifacts written are [initial],
    [iteration_1] to [iteration_k] and [final], none for pass [k + 1]. *)
Theorem stagnation_stops_the_loop args w code0 w0 errs e replies execs_rest llm_rest :
  code_type args = "python" ->
  startup args w = (Ok code0, w0) ->
  fresh_errors None errs -> last errs = Some e ->
  execs w0 = (ExecRaises <$> errs) ++ ExecRaises e :: execs_rest ->
  length replies = length errs -> llm w0 = replies ++ llm_rest ->
  Z.of_nat (length errs) < iterations args ->
  exists w' c,
    main args w = (Ok (FinalExit (BreakAt (Z.of_nat (length errs) + 1) SameError)), w') ∧
    (executed (events_of (main args) w)).*2 = ExecRaises <$> (errs ++ [e]) ∧
    last (executed (events_of (main args) w)) = Some (c, ExecRaises e) ∧
    length (requests (events_of (main args) w)) = S (length errs) ∧
    llm w' = llm_rest ∧
    files w' !! script_path "final" "python" = Some c ∧
    last (written (events_of (main args) w)) = Some (script_path "final" "python", c) ∧
    (written (events_of (main args) w)).*1
    = script_path "initial" "python"
      :: (iteration_path "python" <$> range1 (Z.of_nat (length errs)))
      ++ [script_path "final" "python"].
Proof.
  intros Hpy Hs Hfresh Hlast Hex Hlr Hllm Hk.
  set (k := Z.of_nat (length errs)).
  destruct (main_through_loop args w code0 w0 Hs)
    as (w1 & user & reply & Hc0 & Hllm1 & Hex1 & _ & Hok).
  { rewrite Hpy. discriminate. }
  rewrite Hex in Hex1. rewrite Hllm in Hllm1.
  destruct (range1_split (length errs) (iterations args) Hk) as [more Hrange].
  destruct (for_loop_repairs args errs Hpy replies (Z.of_nat <$> seq 1 (length errs))
              ((k + 1) :: more) (mkLoop code0 None) w1 (ExecRaises e :: execs_rest) llm_rest)
    as (w2 & d2 & E2 & A2 & Hex2 & Hllm2 & G2 & U2 & X2 & W2);
    [done|by rewrite length_fmap, length_seq|done|done|done|].
  simpl in E2. rewrite Hlast in E2. simpl in E2.
  set (codes := (fun r => extract_code r (code_type args)) <$> replies) in *.
  set (st := mkLoop (default code0 (last codes)) (Some e)) in *.
  destruct (iteration_same_error args (k + 1) st w2 e execs_rest Hpy Hex2 eq_refl)
    as (w3 & d3 & E3 & A3 & R3 & X3 & W3).
  assert (Hloop : for_loop args (range1 (iterations args)) (mkLoop code0 None) w1
                  = (Ok (st, BreakAt (k + 1) SameError), w3)).
  { rewrite Hrange. fold k. rewrite E2. simpl. by rewrite (bind_ok _ _ _ _ _ E3). }
  destruct (Hok _ _ _ _ Hloop (advances_trans _ _ _ _ _ A2 A3))
    as (w4 & Hmain & Hllm4 & _ & Hf & R & X & W).
  exists w4, (code st). rewrite Hpy in *. split; [done|].
  rewrite X, R, W, !executed_app, !requests_app, !written_app, R3, X3, W3, W2.
  rewrite !app_nil_r, fmap_app, X2.
  split; [by rewrite fmap_app|].
  split; [by rewrite last_snoc|].
  split.
  { simpl. f_equal.
    assert (length (requests d2) = length errs) as ->; [|lia].
    unfold generated in G2. apply (f_equal length) in G2.
    rewrite length_fmap in G2. subst codes. rewrite length_fmap in G2. lia. }
  split; [destruct A3 as (_ & Hl3 & _); rewrite Hllm4, Hl3, R3; done|].
  split; [done|].
  split; [by rewrite app_comm_cons, last_snoc|].
  rewrite fmap_cons, fmap_app. simpl. f_equal. f_equal.
  rewrite fst_zip_with_path.
  - unfold range1, k. by rewrite Nat2Z.id.
  - subst codes. rewrite !length_fmap, length_seq. lia.
Qed.

Lemma stagnation_stops_the_loop_witness :
  startup (inline_args "python" 5) stagnant_world
  = (Ok "print(hello)", snd (startup (inline_args "python" 5) stagnant_world))
  ∧ execs (snd (startup (inline_args "python" 5) stagnant_world))
    = (ExecRaises <$> [error1]) ++ ExecRaises error1 :: [ExecOk]
  ∧ exists w' c,
      main (inline_args "python" 5) stagnant_world
      = (Ok (FinalExit (BreakAt 2 SameError)), w') ∧
      (executed (events_of (main (inline_args "python" 5)) stagnant_world)).*2
      = [ExecRaises error1; ExecRaises error1] ∧
      last (executed (events_of (main (inline_args "python" 5)) stagnant_world))
      = Some (c, ExecRaises error1) ∧
      length (requests (events_of (main (inline_args "python" 5)) stagnant_world)) = 2%nat ∧
      llm w' = [attempt3] ∧
      files w' !! script_path "final" "python" = Some c ∧
      last (written (events_of (main (inline_args "python" 5)) stagnant_world))
      = Some (script_path "final" "python", c) ∧
      (written (events_of (main (inline_args "python" 5)) stagnant_world)).*1
      = script_path "initial" "python" :: (iteration_path "python" <$> range1 1)
        ++ [script_path "final" "python"].
Proof.
  split; [by vm_compute|]. split; [by vm_compute|].
  apply (stagnation_stops_the_loop (inline_args "python" 5) stagnant_world "print(hello)"
           (snd (startup (inline_args "python" 5) stagnant_world))
           [error1] error1 [attempt2] [ExecOk] [attempt3]).
  - reflexivity.
  - by vm_compute.
  - by vm_compute.
  - reflexivity.
  - by vm_compute.
  - reflexivity.
  - by vm_compute.
  - by vm_compute.
Defined.

(** C8.  For the code type [python]: let every execution of the
    [max_iterations] passes fail, no error repeating the one before, the
    model answering each repair request.  Then the loop runs out of passes;
    the requests made are the first generation followed by exactly
    [max_iterations] repair requests; and the [final] artifact holds the
    last code generated. *)
Theorem exhaustion_makes_every_repair args w code0 w0 errs replies execs_rest llm_rest :
  code_type args = "python" ->
  startup args w = (Ok code0, w0) ->
  Z.of_nat (length errs) = iterations args ->
  fresh_errors None errs ->
  execs w0 = (ExecRaises <$> errs) ++ execs_rest ->
  length replies = length errs -> llm w0 = replies ++ llm_rest ->
  exists w' c first repairs,
    main args w = (Ok (FinalExit RangeExhausted), w') ∧
    (executed (events_of (main args) w)).*2 = ExecRaises <$> errs ∧
    user_messages (events_of (main args) w) = first :: repairs ∧
    Forall (is_repair_request args) repairs ∧
    Z.of_nat (length repairs) = iterations args ∧
    last (generated (code_type args) (events_of (main args) w)) = Some c ∧
    last (written (events_of (main args) w)) = Some (script_path "final" "python", c) ∧
    files w' !! script_path "final" "python" = Some c.
Proof.
  intros Hpy Hs Hn Hfresh Hex Hlr Hllm.
  destruct (main_through_loop args w code0 w0 Hs)
    as (w1 & user & reply & Hc0 & Hllm1 & Hex1 & _ & Hok).
  { rewrite Hpy. discriminate. }
  rewrite Hex in Hex1. rewrite Hllm in Hllm1.
  destruct (for_loop_repairs args errs Hpy replies (range1 (iterations args)) []
              (mkLoop code0 None) w1 execs_rest llm_rest)
    as (w2 & d2 & E2 & A2 & Hex2 & Hllm2 & G2 & U2 & X2 & W2);
    [done|unfold range1; rewrite length_fmap, length_seq; lia|done|done|done|].
  rewrite app_nil_r in E2. simpl in E2.
  set (codes := (fun r => extract_code r (code_type args)) <$> replies) in *.
  destruct (Hok _ _ _ _ E2 A2) as (w3 & Hmain & _ & _ & Hf & R & X & W).
  exists w3, (default code0 (last codes)), user, (user_messages d2).
  rewrite Hpy in *. split; [done|].
  split; [by rewrite X|].
  split; [unfold user_messages; by rewrite R|].
  split; [done|].
  split.
  { unfold user_messages. rewrite length_fmap, <- Hn. f_equal. rewrite <- Hlr.
    unfold generated in G2. apply (f_equal length) in G2.
    subst codes. by rewrite !length_fmap in G2. }
  split.
  { unfold generated in *. rewrite R, fmap_cons, last_cons, G2. simpl.
    rewrite <- Hc0. by destruct (last codes). }
  split; [|done].
  rewrite W. by rewrite app_comm_cons, last_snoc.
Qed.

Lemma exhaustion_makes_every_repair_witness :
  startup (inline_args "python" 2) failing_world
  = (Ok "print(hello)", snd (startup (inline_args "python" 2) failing_world))
  ∧ execs (snd (startup (inline_args "python" 2) failing_world))
    = (ExecRaises <$> [error1; error2]) ++ []
  ∧ exists w' c first repairs,
      main (inline_args "python" 2) failing_world = (Ok (FinalExit RangeExhausted), w') ∧
      (executed (events_of (main (inline_args "python" 2)) failing_world)).*2
      = [ExecRaises error1; ExecRaises error2] ∧
      user_messages (events_of (main (inline_args "python" 2)) failing_world)
      = first :: repairs ∧
      Forall (is_repair_request (inline_args "python" 2)) repairs ∧
      Z.of_nat (length repairs) = 2 ∧
      last (generated "python" (events_of (main (inline_args "python" 2)) failing_world))
      = Some c ∧
      last (written (events_of (main (inline_args "python" 2)) failing_world))
      = Some (script_path "final" "python", c) ∧
      files w' !! script_path "final" "python" = Some c.
Proof.
  split; [by vm_compute|]. split; [by vm_compute|].
  apply (exhaustion_makes_every_repair (inline_args "python" 2) failing_world "print(hello)"
           (snd (startup (inline_args "python" 2) failing_world))
           [error1; error2] [attempt2; attempt3] [] []).
  - reflexivity.
  - by vm_compute.
  - reflexivity.
  - by vm_compute.
  - by vm_compute.
  - reflexivity.
  - by vm_compute.
Defined.

(** * Further properties *)

(** ** What any run stays within *)

Section Within.
Variable ct : string.

Local Arguments PyStr.starts_with : simpl never.

Lemma within_refl w : within ct 0 0 w w.
Proof. exists []. split; [apply advances_refl|]. simpl. repeat split; auto. Qed.

Lemma within_trans a b c d w1 w2 w3 :
  within ct a b w1 w2 -> within ct c d w2 w3 -> within ct (a + c) (b + d) w1 w3.
Proof.
  intros (d1 & A1 & R1 & X1 & W1 & P1) (d2 & A2 & R2 & X2 & W2 & P2).
  exists (d1 ++ d2). split; [by eapply advances_trans|].
  rewrite requests_app, executed_app, written_app, !length_app, !Forall_app.
  split; [lia|]. split; [lia|]. done.
Qed.

Lemma within_weaken a b a' b' w w' :
  within ct a b w w' -> (a <= a')%nat -> (b <= b')%nat -> within ct a' b' w w'.
Proof.
  intros (d & A & R & X & W & P) Ha Hb. exists d.
  split; [done|]. split; [lia|]. split; [lia|]. done.
Qed.

(** Sequencing adds the budgets, whether the first part returns or raises. *)
Lemma within_bind {A B} (m : M A) (k : A -> M B) a b c d w :
  within ct a b w (snd (m w)) ->
  (forall x w1, within ct c d w1 (snd (k x w1))) ->
  within ct (a + c) (b + d) w (snd (bind m k w)).
Proof.
  intros Hm Hk. unfold bind. destruct (m w) as [[x|e] w1]; simpl in *.
  - eapply within_trans; [exact Hm|apply Hk].
  - eapply within_weaken; [exact Hm|lia|lia].
Qed.

Lemma within_try_except {A} (body : M A) (handler : string -> M A) a b c d w :
  within ct a b w (snd (body w)) ->
  (forall msg w1, within ct c d w1 (snd (handler msg w1))) ->
  within ct (a + c) (b + d) w (snd (try_except body handler w)).
Proof.
  intros Hb Hh. unfold try_except. destruct (body w) as [[x|[msg|]] w1]; simpl in *.
  - eapply within_weaken; [exact Hb|lia|lia].
  - eapply within_trans; [exact Hb|apply Hh].
  - eapply within_weaken; [exact Hb|lia|lia].
Qed.

Lemma within_ret {A} (x : A) w : within ct 0 0 w (snd (ret x w)).
Proof. apply within_refl. Qed.

Lemma within_print text w : within ct 0 0 w (snd (print text w)).
Proof. exists [EvPrint text]. split; [by unfold advances|]. simpl. repeat split; auto. Qed.

Lemma within_exec code w : within ct 0 1 w (snd (exec code w)).
Proof.
  exists [EvExec code match execs w with [] => ExecAborts | o :: _ => o end].
  split.
  - unfold exec. destruct (execs w) as [|[|msg|] rest] eqn:E; unfold advances; simpl;
      rewrite E; done.
  - simpl. repeat split; auto.
Qed.

Lemma within_save code code_type i status w :
  within ct 0 0 w (snd (save_code_to_file code code_type i status w)).
Proof.
  destruct (save_code_to_file_advances code code_type i status w)
    as (w' & d & E & A & R & X & W).
  rewrite E. exists d. split; [done|]. rewrite R, X, W. simpl.
  repeat split; auto.
Qed.

Lemma within_call_chatgpt p instr w : within ct 1 0 w (snd (call_chatgpt p ct instr w)).
Proof.
  unfold call_chatgpt, bind, chat_completions_create, ret.
  destruct (llm w) as [|reply rest] eqn:E; simpl.
  - eapply within_weaken; [apply within_refl|lia|lia].
  - exists [EvRequest "gpt-4" "You are a helpful assistant." (instruction ct +:+ p) reply].
    split; [unfold advances; simpl; by rewrite E|].
    simpl. repeat split; auto. apply Forall_singleton. apply PyStrFacts.starts_with_app.
Qed.

Lemma within_read_file path w : within ct 0 0 w (snd (read_file path w)).
Proof. unfold read_file. destruct (files w !! path); apply within_refl. Qed.

Lemma within_isfile path w : within ct 0 0 w (snd (isfile path w)).
Proof. apply within_refl. Qed.

Lemma within_raise {A} e w : within ct 0 0 w (snd (@raise A e w)).
Proof. apply within_refl. Qed.

Lemma within_set_api_key key w : within ct 0 0 w (snd (set_api_key key w)).
Proof. exists []. split; [unfold advances; simpl; by rewrite app_nil_r|]. by simpl. Qed.

Lemma within_input text w : within ct 0 0 w (snd (input text w)).
Proof.
  unfold input. destruct (stdin w) as [|line rest]; [apply within_refl|].
  exists [EvInput text line]. split; [by unfold advances|]. by simpl.
Qed.

Lemma within_print_usage w : within ct 0 0 w (snd (print_usage w)).
Proof. exists [EvUsage]. split; [by unfold advances|]. by simpl. Qed.

End Within.

(** Budget of a straight line of actions, added up step by step. *)
Ltac within_line :=
  repeat first
    [ apply within_ret | apply within_print | apply within_exec | apply within_save
    | apply within_call_chatgpt | apply within_read_file | apply within_isfile
    | apply within_raise | apply within_set_api_key | apply within_input
    | apply within_print_usage
    | (eapply within_bind; [|intros]) ].

Ltac within_block :=
  eapply within_weaken; [within_line|simpl; lia|simpl; lia].

Section WithinRun.
Variable args : Args.

Lemma within_iteration i st w :
  within (code_type args) 1 1 w (snd (iteration args i st w)).
Proof.
  unfold iteration, debug_code_with_chatgpt.
  apply (within_bind _ _ _ 0 0 1 1); [apply within_print|]. intros _ w1.
  apply (within_try_except _ _ _ 0 1 1 0).
  - case_bool_decide; within_block.
  - intros msg w2. apply (within_bind _ _ _ 0 0 1 0); [apply within_print|]. intros _ w3.
    case_bool_decide; within_block.
Qed.

Lemma within_for_loop indices :
  forall st w,
    within (code_type args) (length indices) (length indices) w
      (snd (for_loop args indices st w)).
Proof.
  induction indices as [|i indices IH]; intros st w.
  - apply within_refl.
  - simpl. apply (within_bind _ _ _ 1 1 (length indices) (length indices));
      [apply within_iteration|].
    intros [st' [site|]] w1; [|apply IH].
    eapply within_weaken; [apply within_ret|lia|lia].
Qed.

Lemma within_startup w : within (code_type args) 1 0 w (snd (startup args w)).
Proof.
  unfold startup, read_api_key, initial_code.
  destruct (truthy (prompt args)); [|destruct (truthy (modify args))].
  - eapply within_weaken; [|reflexivity|reflexivity].
    apply (within_bind _ _ _ 0 0 1 0); [within_block|]. intros key w1.
    apply (within_bind _ _ _ 0 0 1 0); [within_block|]. intros _ w2.
    apply (within_bind _ _ _ 0 0 1 0); [within_block|]. intros [|] w3.
    + within_block.
    + within_block.
  - within_block.
  - within_block.
Qed.

Lemma within_debug_and_save code0 w :
  within (code_type args) (Z.to_nat (iterations args)) (Z.to_nat (iterations args)) w
    (snd (debug_and_save args code0 w)).
Proof.
  unfold debug_and_save. case_bool_decide.
  - eapply within_weaken; [within_line|simpl; lia|simpl; lia].
  - set (n := Z.to_nat (iterations args)).
    do 4 (apply (within_bind _ _ _ 0 0 n n); [within_block|]; intros _ ?).
    replace n with (n + 0)%nat by lia.
    apply within_bind.
    + replace n with (length (range1 (iterations args))); [apply within_for_loop|].
      unfold range1. by rewrite length_fmap, length_seq.
    + intros [[c l] how] w5. within_block.
Qed.

Lemma within_main w :
  within (code_type args) (1 + Z.to_nat (iterations args)) (Z.to_nat (iterations args)) w
    (snd (main args w)).
Proof.
  unfold main. destruct (_ && _).
  - unfold usage. within_block.
  - change (Z.to_nat (iterations args)) with (0 + Z.to_nat (iterations args))%nat at 2.
    apply within_bind; [apply within_startup|]. intros code0 w1.
    apply within_debug_and_save.
Qed.


End WithinRun.

Lemma run_result {A} (m : M A) (w : World) : m w = (fst (m w), snd (m w)).
Proof. by destruct (m w). Qed.

Lemma within_events {A} (m : M A) ct a b w :
  within ct a b w (snd (m w)) ->
  (length (requests (events_of m w)) <= a)%nat ∧
  (length (executed (events_of m w)) <= b)%nat ∧
  Forall (fun pt => under_scripts pt.1 = true) (written (events_of m w)) ∧
  Forall (fun ur => PyStr.starts_with (instruction ct) ur.1 = true) (requests (events_of m w)).
Proof.
  intros (d & A0 & H). by rewrite (events_of_advances m w _ _ d (run_result m w) A0).
Qed.


(** X2.  Every request [main] sends, the first generation and each repair
    alike, has a user message that opens with the instruction for the code
    type, [Implement a <code_type> script in a single code block to perform
    this task: ]. *)
Theorem every_request_opens_with_instruction args w :
  Forall (fun user =>
            PyStr.starts_with
              ("Implement a " +:+ code_type args
               +:+ " script in a single code block to perform this task: ") user = true)
    (user_messages (events_of (main args) w)).
Proof.
  destruct (within_events (main args) _ _ _ w (within_main args w)) as (_ & _ & _ & P).
  unfold user_messages. apply Forall_fmap. exact P.
Qed.



(** X4.  With neither option set, an empty string counting as unset, [main]
    only prints its usage: it returns without looking for the key file,
    asking for input, sending a request, executing or writing anything. *)
Theorem usage_touches_nothing args w :
  truthy (prompt args) = false -> truthy (modify args) = false ->
  exists w',
    main args w = (Ok UsageExit, w') ∧
    files w' = files w ∧ dirs w' = dirs w ∧ stdin w' = stdin w ∧ llm w' = llm w ∧
    execs w' = execs w ∧ api_key w' = api_key w ∧
    requests (events_of (main args) w) = [] ∧
    executed (events_of (main args) w) = [] ∧
    written (events_of (main args) w) = [] ∧
    head (events_of (main args) w) = Some EvUsage.
Proof.
  intros Hp Hm.
  assert (Hmain : exists w' d,
             main args w = (Ok UsageExit, w') ∧ log w' = log w ++ d ∧
             requests d = [] ∧ executed d = [] ∧ written d = [] ∧
             head d = Some EvUsage ∧
             files w' = files w ∧ dirs w' = dirs w ∧ stdin w' = stdin w ∧ llm w' = llm w ∧
             execs w' = execs w ∧ api_key w' = api_key w).
  { unfold main. rewrite Hp, Hm. unfold usage, bind, print, print_usage, ret. simpl.
    eexists _, _. split; [reflexivity|]. simpl. rewrite <- !app_assoc.
    split; [reflexivity|]. done. }
  destruct Hmain as (w' & d & E & L & R & X & W & H & F).
  exists w'. split; [done|]. destruct F as (? & ? & ? & ? & ? & ?).
  unfold events_of. rewrite E. simpl. rewrite L, drop_app_length.
  by rewrite R, X, W, H.
Qed.

Lemma usage_touches_nothing_witness :
  truthy (prompt (mkArgs (Some "") None "python" 5)) = false
  ∧ exists w',
      main (mkArgs (Some "") None "python" 5) success_world = (Ok UsageExit, w') ∧
      files w' = files success_world ∧ dirs w' = dirs success_world ∧
      stdin w' = stdin success_world ∧ llm w' = llm success_world ∧
      execs w' = execs success_world ∧ api_key w' = api_key success_world ∧
      requests (events_of (main (mkArgs (Some "") None "python" 5)) success_world) = [] ∧
      executed (events_of (main (mkArgs (Some "") None "python" 5)) success_world) = [] ∧
      written (events_of (main (mkArgs (Some "") None "python" 5)) success_world) = [] ∧
      head (events_of (main (mkArgs (Some "") None "python" 5)) success_world) = Some EvUsage.
Proof.
  split; [reflexivity|].
  apply (usage_touches_nothing (mkArgs (Some "") None "python" 5) success_world);
    reflexivity.
Defined.

(** X5.  When an option is set and [api_key.txt] does not exist, [main]
    raises the error of the failed [open] and leaves the world exactly as it
    found it: nothing printed, requested, executed or written. *)
Theorem missing_key_file_aborts args w :
  negb (truthy (prompt args)) && negb (truthy (modify args)) = false ->
  files w !! "api_key.txt" = None ->
  main args w
  = (Raise (Exception "[Errno 2] No such file or directory: 'api_key.txt'"), w).
Proof.
  intros Ht Hk. unfold main. rewrite Ht.
  unfold startup, read_api_key, read_file, bind. by rewrite Hk.
Qed.

Lemma missing_key_file_aborts_witness :
  files (mkWorld ∅ ∅ [] [attempt1] [ExecOk] None []) !! "api_key.txt" = None
  ∧ main (inline_args "python" 5) (mkWorld ∅ ∅ [] [attempt1] [ExecOk] None [])
    = (Raise (Exception "[Errno 2] No such file or directory: 'api_key.txt'"),
       mkWorld ∅ ∅ [] [attempt1] [ExecOk] None []).
Proof.
  split; [reflexivity|].
  apply (missing_key_file_aborts (inline_args "python" 5)); reflexivity.
Defined.

(** ** Start-up *)

(** X6.  [--prompt] is read as a path when a file of that name exists, and
    as the prompt itself otherwise: the first request carries the contents
    of the file in the first case and the argument in the second.  The key
    is stored stripped; nothing is read from the user. *)
Theorem startup_resolves_prompt args w p key reply rest :
  prompt args = Some p -> p ≠ "" ->
  files w !! "api_key.txt" = Some key ->
  llm w = reply :: rest ->
  exists w0,
    startup args w = (Ok (extract_code reply (code_type args)), w0) ∧
    user_messages (events_of (startup args) w)
    = [instruction (code_type args) +:+ default p (files w !! p)] ∧
    api_key w0 = Some (strip key) ∧ stdin w0 = stdin w ∧ llm w0 = rest.
Proof.
  intros Hp Hne Hk Hl.
  assert (H : exists w0,
             startup args w = (Ok (extract_code reply (code_type args)), w0) ∧
             log w0 = log w ++ [EvRequest "gpt-4" "You are a helpful assistant."
                                  (instruction (code_type args)
                                   +:+ default p (files w !! p)) reply] ∧
             api_key w0 = Some (strip key) ∧ stdin w0 = stdin w ∧ llm w0 = rest).
  { unfold startup, read_api_key, initial_code, call_chatgpt, chat_completions_create,
      read_file, isfile, set_api_key, bind, ret.
    rewrite Hp, Hk. simpl. rewrite bool_decide_eq_false_2 by done. simpl.
    destruct (files w !! p) as [text|] eqn:Hf; simpl; rewrite ?Hf, Hl;
      eexists; (split; [reflexivity|done]). }
  destruct H as (w0 & E & L & K).
  exists w0. split; [done|]. split; [|done].
  unfold events_of. rewrite E. simpl. by rewrite L, drop_app_length.
Qed.

Lemma startup_resolves_prompt_witness :
  files repaired_world !! "task.txt" = Some "print hello"
  ∧ files repaired_world !! "say hello" = None
  ∧ (exists w0,
        startup prompt_file_args repaired_world = (Ok "print(hello)", w0) ∧
        user_messages (events_of (startup prompt_file_args) repaired_world)
        = [instruction "python" +:+ "print hello"] ∧
        api_key w0 = Some "sk-test" ∧ stdin w0 = ["add a docstring"] ∧ llm w0 = [attempt3])
  ∧ (exists w0,
        startup (inline_args "python" 5) repaired_world = (Ok "print(hello)", w0) ∧
        user_messages (events_of (startup (inline_args "python" 5)) repaired_world)
        = [instruction "python" +:+ "say hello"] ∧
        api_key w0 = Some "sk-test" ∧ stdin w0 = ["add a docstring"] ∧ llm w0 = [attempt3]).
Proof.
  split; [reflexivity|]. split; [reflexivity|]. split.
  - apply (startup_resolves_prompt prompt_file_args repaired_world "task.txt"
             ("sk-test" +:+ nl) attempt1 [attempt3]); [reflexivity|discriminate|..];
      reflexivity.
  - apply (startup_resolves_prompt (inline_args "python" 5) repaired_world "say hello"
             ("sk-test" +:+ nl) attempt1 [attempt3]); [reflexivity|discriminate|..];
      reflexivity.
Defined.

(** X7.  In modify mode, when the file to modify does not exist, [main]
    raises the error of the failed [open] before it asks the user anything
    or sends a request; only the key has been stored. *)
Theorem modify_missing_file_aborts args w path key :
  truthy (prompt args) = false -> modify args = Some path -> path ≠ "" ->
  files w !! "api_key.txt" = Some key ->
  files w !! path = None ->
  exists w',
    main args w
    = (Raise (Exception ("[Errno 2] No such file or directory: '" +:+ path +:+ "'")), w') ∧
    log w' = log w ∧ stdin w' = stdin w ∧ llm w' = llm w ∧ files w' = files w ∧
    api_key w' = Some (strip key).
Proof.
  intros Hp Hm Hne Hk Hf. unfold main. rewrite Hp, Hm. simpl.
  rewrite bool_decide_eq_false_2 by done. simpl.
  unfold startup, read_api_key, initial_code, read_file, set_api_key, bind, ret.
  rewrite Hp, Hm, Hk. simpl. rewrite bool_decide_eq_false_2 by done. simpl.
  rewrite Hf. by eexists.
Qed.

Lemma modify_missing_file_aborts_witness :
  files modify_world !! "missing.py" = None
  ∧ exists w',
      main (mkArgs None (Some "missing.py") "python" 5) modify_world
      = (Raise (Exception ("[Errno 2] No such file or directory: '" +:+ "missing.py" +:+ "'")),
         w') ∧
      log w' = log modify_world ∧ stdin w' = stdin modify_world ∧
      llm w' = llm modify_world ∧ files w' = files modify_world ∧
      api_key w' = Some (strip ("sk-test" +:+ nl)).
Proof.
  split; [reflexivity|].
  apply (modify_missing_file_aborts (mkArgs None (Some "missing.py") "python" 5) modify_world
           "missing.py" ("sk-test" +:+ nl)); [reflexivity|reflexivity|discriminate|..];
    reflexivity.
Defined.

Lemma for_loop_ignores_modify p m m' c n indices :
  forall st w,
    for_loop (mkArgs p m c n) indices st w = for_loop (mkArgs p m' c n) indices st w.
Proof.
  induction indices as [|i indices IH]; intros st w; [done|].
  simpl. unfold bind.
  change (iteration (mkArgs p m c n) i st w) with (iteration (mkArgs p m' c n) i st w).
  destruct (iteration (mkArgs p m' c n) i st w) as [[[st' [site|]]|e] w1]; done.
Qed.

Lemma debug_and_save_ignores_modify p m m' c n code0 w :
  debug_and_save (mkArgs p m c n) code0 w = debug_and_save (mkArgs p m' c n) code0 w.
Proof.
  unfold debug_and_save. cbn [code_type iterations]. case_bool_decide; [done|].
  unfold bind.
  destruct (print "------------------" w) as [[[]|e] w6]; [|done].
  destruct (print _ w6) as [[[]|e] w7]; [|done].
  destruct (print "------------------" w7) as [[[]|e] w8]; [|done].
  destruct (save_code_to_file code0 c 0 "initial" w8) as [[[]|e] w9]; [|done].
  by rewrite (for_loop_ignores_modify p m m' c n).
Qed.

(** X8.  When [--prompt] is set, [--modify] is ignored altogether: the run
    is the same whatever [--modify] holds, so the file it names is not read
    and no description is asked for. *)
Theorem prompt_overrides_modify args m w :
  truthy (prompt args) = true ->
  main (with_modify args m) w = main args w.
Proof.
  intros Hp. destruct args as [p m0 c n]. unfold with_modify.
  cbn [prompt modify code_type iterations] in *.
  assert (Hs : startup (mkArgs p m c n) w = startup (mkArgs p m0 c n) w).
  { unfold startup, initial_code. cbn [prompt modify code_type]. by rewrite Hp. }
  unfold main. cbn [prompt modify]. rewrite Hp. cbn [negb andb].
  unfold bind. rewrite Hs. destruct (startup (mkArgs p m0 c n) w) as [[code0|e] w0]; [|done].
  apply debug_and_save_ignores_modify.
Qed.

Lemma prompt_overrides_modify_witness :
  truthy (prompt (inline_args "python" 5)) = true
  ∧ main (with_modify (inline_args "python" 5) (Some "existing.py")) repaired_world
    = main (inline_args "python" 5) repaired_world.
Proof.
  split; [reflexivity|].
  apply (prompt_overrides_modify (inline_args "python" 5) (Some "existing.py") repaired_world).
  reflexivity.
Defined.

(** X9.  When the first request fails, [main] ends with the error of the
    request, having printed, executed and written nothing. *)
Theorem first_request_failure_aborts args w p key :
  prompt args = Some p -> p ≠ "" ->
  files w !! "api_key.txt" = Some key ->
  llm w = [] ->
  exists w',
    main args w = (Raise (Exception "Connection error."), w') ∧
    log w' = log w ∧ files w' = files w ∧ dirs w' = dirs w ∧ execs w' = execs w.
Proof.
  intros Hp Hne Hk Hl. unfold main. rewrite Hp. simpl.
  rewrite bool_decide_eq_false_2 by done. simpl.
  unfold startup, read_api_key, initial_code, call_chatgpt, chat_completions_create,
    read_file, isfile, set_api_key, bind, ret.
  rewrite Hp, Hk. simpl. rewrite bool_decide_eq_false_2 by done. simpl.
  destruct (files w !! p) as [text|] eqn:Hf; simpl; rewrite ?Hf; simpl; rewrite Hl;
    by eexists.
Qed.

Lemma first_request_failure_aborts_witness :
  llm (sample_world [] [] [ExecOk]) = []
  ∧ exists w',
      main (inline_args "python" 5) (sample_world [] [] [ExecOk])
      = (Raise (Exception "Connection error."), w') ∧
      log w' = log (sample_world [] [] [ExecOk]) ∧
      files w' = files (sample_world [] [] [ExecOk]) ∧
      dirs w' = dirs (sample_world [] [] [ExecOk]) ∧
      execs w' = execs (sample_world [] [] [ExecOk]).
Proof.
  split; [reflexivity|].
  apply (first_request_failure_aborts (inline_args "python" 5) (sample_world [] [] [ExecOk])
           "say hello" ("sk-test" +:+ nl)); [reflexivity|discriminate|..]; reflexivity.
Defined.

(** ** Runs that end in the loop *)

Section LoopEnds.
Variable args : Args.

Lemma iteration_repair_fails i st w error rest :
  code_type args = "python" -> execs w = ExecRaises error :: rest ->
  last_error_message st ≠ Some error -> llm w = [] ->
  exists w' d,
    iteration args i st w = (Raise (Exception "Connection error."), w') ∧ advances w w' d ∧
    requests d = [] ∧ executed d = [(code st, ExecRaises error)] ∧ written d = [].
Proof.
  intros Hct Hex Hlast Hllm.
  unfold iteration, bind, try_except, print, exec, ret, debug_code_with_chatgpt,
    call_chatgpt, chat_completions_create.
  rewrite bool_decide_eq_true_2 by done. world_simpl. rewrite Hex. world_simpl.
  rewrite bool_decide_eq_false_2 by congruence. unfold bind. world_simpl. rewrite Hllm.
  eexists _, [EvPrint _; EvExec _ _; EvPrint _]. split; [reflexivity|].
  unfold advances. simpl. rewrite Hex, Hllm. by rewrite <- !app_assoc.
Qed.

Lemma iteration_aborts i st w :
  code_type args = "python" -> head (execs w) = Some ExecAborts ∨ execs w = [] ->
  exists w' d,
    iteration args i st w = (Raise BaseException, w') ∧ advances w w' d ∧
    requests d = [] ∧ executed d = [(code st, ExecAborts)] ∧ written d = [].
Proof.
  intros Hct Hex. unfold iteration, bind, try_except, print, exec, ret.
  rewrite bool_decide_eq_true_2 by done. world_simpl.
  destruct (execs w) as [|o rest] eqn:E.
  - eexists _, [EvPrint _; EvExec _ _]. split; [reflexivity|].
    unfold advances. simpl. rewrite E. by rewrite <- !app_assoc.
  - destruct Hex as [Hex|Hex]; [|done]. simpl in Hex. simplify_eq.
    eexists _, [EvPrint _; EvExec _ _]. split; [reflexivity|].
    unfold advances. simpl. rewrite E. by rewrite <- !app_assoc.
Qed.

(** A run whose loop raises ends there: the last save is not reached. *)
Lemma main_loop_raises w code0 w0 :
  startup args w = (Ok code0, w0) -> code_type args ≠ "latex" ->
  exists w1 user reply,
    code0 = extract_code reply (code_type args) ∧
    llm w1 = llm w0 ∧ execs w1 = execs w0 ∧
    (forall e w2 dl,
        for_loop args (range1 (iterations args)) (mkLoop code0 None) w1 = (Raise e, w2) ->
        advances w1 w2 dl ->
        main args w = (Raise e, w2) ∧
        requests (events_of (main args) w) = (user, reply) :: requests dl ∧
        executed (events_of (main args) w) = executed dl ∧
        written (events_of (main args) w)
        = (script_path "initial" (code_type args), code0) :: written dl ∧
        files w2 = foldl (fun m pt => <[pt.1 := pt.2]> m) (files w)
                     ((script_path "initial" (code_type args), code0) :: written dl)).
Proof.
  intros Hs Hct.
  destruct (startup_returns args w code0 w0 Hs) as (d0 & user & reply & A0 & R0 & -> & X0 & W0 & _).
  destruct (debug_and_save_loop args (extract_code reply (code_type args)) w0 Hct)
    as (w1 & d1 & A1 & R1 & X1 & W1 & Hraise & _).
  exists w1, user, reply. split; [done|].
  split; [destruct A1 as (_ & -> & _); by rewrite R1|].
  split; [destruct A1 as (_ & _ & -> & _); by rewrite X1|].
  intros e w2 dl Hloop Al.
  assert (Hmain : main args w = (Raise e, w2)).
  { rewrite (main_after_startup _ _ _ _ Hs). by apply Hraise. }
  assert (A : advances w w2 (d0 ++ d1 ++ dl)).
  { repeat (eapply advances_trans; [eassumption|]). done. }
  split; [done|].
  rewrite (events_of_advances _ _ _ _ _ Hmain A).
  destruct A as (_ & _ & _ & ->).
  rewrite !requests_app, !executed_app, !written_app.
  by rewrite R0, R1, X0, X1, W0, W1.
Qed.

Lemma foldl_insert_lookup_other (l : list (string * string)) (m : gmap string string) path :
  path ∉ l.*1 ->
  foldl (fun m pt => <[pt.1 := pt.2]> m) m l !! path = m !! path.
Proof.
  revert m. induction l as [|[p t] l IH]; intros m Hp; [done|].
  simpl in *. apply not_elem_of_cons in Hp as [Hne Hp].
  rewrite IH by done. by rewrite lookup_insert_ne.
Qed.

Lemma final_path_not_saved_in_loop ct code0 indices (codes : list string) :
  script_path "final" ct
  ∉ ((script_path "initial" ct, code0)
     :: zip_with (fun i c => (iteration_path ct i, c)) indices codes).*1.
Proof.
  rewrite fmap_cons. apply not_elem_of_cons. split.
  - unfold script_path. intros H. discriminate H.
  - intros Hin. apply list_elem_of_fmap in Hin as ([p t] & Hp & Hin).
    revert codes Hin. induction indices as [|i indices IH]; intros [|c codes] Hin;
      simpl in *; try by apply elem_of_nil in Hin.
    apply elem_of_cons in Hin as [Heq|Hin]; [|by eapply IH].
    simplify_eq.
Qed.

(** After [k] repairs, a pass that raises out of the loop ends the run with
    the artifacts written so far and no [final] one. *)
Lemma run_raises_after_repairs w code0 w0 errs replies execs_rest llm_rest e x :
  code_type args = "python" ->
  startup args w = (Ok code0, w0) ->
  fresh_errors None errs ->
  execs w0 = (ExecRaises <$> errs) ++ execs_rest ->
  length replies = length errs -> llm w0 = replies ++ llm_rest ->
  Z.of_nat (length errs) < iterations args ->
  (forall i st w2,
      execs w2 = execs_rest -> llm w2 = llm_rest ->
      last_error_message st = last errs ->
      exists w3 d3,
        iteration args i st w2 = (Raise e, w3) ∧ advances w2 w3 d3 ∧
        requests d3 = [] ∧ executed d3 = [(code st, x)] ∧ written d3 = []) ->
  exists w',
    main args w = (Raise e, w') ∧
    length (requests (events_of (main args) w)) = S (length errs) ∧
    (executed (events_of (main args) w)).*2 = (ExecRaises <$> errs) ++ [x] ∧
    (written (events_of (main args) w)).*1
    = script_path "initial" "python"
      :: (iteration_path "python" <$> range1 (Z.of_nat (length errs))) ∧
    files w' !! script_path "final" "python" = files w !! script_path "final" "python".
Proof.
  intros Hpy Hs Hfresh Hex Hlr Hllm Hk Hiter.
  set (k := Z.of_nat (length errs)).
  destruct (main_loop_raises w code0 w0 Hs)
    as (w1 & user & reply & Hc0 & Hllm1 & Hex1 & Hraise).
  { rewrite Hpy. discriminate. }
  rewrite Hex in Hex1. rewrite Hllm in Hllm1.
  destruct (range1_split (length errs) (iterations args) Hk) as [more Hrange].
  destruct (for_loop_repairs args errs Hpy replies (Z.of_nat <$> seq 1 (length errs))
              ((k + 1) :: more) (mkLoop code0 None) w1 execs_rest llm_rest)
    as (w2 & d2 & E2 & A2 & Hex2 & Hllm2 & G2 & U2 & X2 & W2);
    [done|by rewrite length_fmap, length_seq|done|done|done|].
  cbn [code last_error_message] in E2.
  set (codes := (fun r => extract_code r (code_type args)) <$> replies) in *.
  set (st := mkLoop (default code0 (last codes)) (from_option Some None (last errs))) in *.
  destruct (Hiter (k + 1) st w2 Hex2 Hllm2) as (w3 & d3 & E3 & A3 & R3 & X3 & W3).
  { subst st. simpl. by destruct (last errs). }
  assert (Hloop : for_loop args (range1 (iterations args)) (mkLoop code0 None) w1
                  = (Raise e, w3)).
  { rewrite Hrange. fold k. rewrite E2. simpl. unfold bind. by rewrite E3. }
  destruct (Hraise _ _ _ Hloop (advances_trans _ _ _ _ _ A2 A3))
    as (Hmain & R & X & W & F).
  exists w3. rewrite Hpy in *. split; [done|].
  rewrite X, R, W, F, !executed_app, !requests_app, !written_app, R3, X3, W3, W2.
  rewrite !app_nil_r, fmap_app, X2.
  split.
  { simpl. f_equal. unfold generated in G2. apply (f_equal length) in G2.
    rewrite length_fmap in G2. subst codes. rewrite length_fmap in G2. lia. }
  split; [done|].
  split.
  { rewrite fmap_cons. simpl. f_equal. rewrite fst_zip_with_path.
    - unfold range1, k. by rewrite Nat2Z.id.
    - subst codes. rewrite !length_fmap, length_seq. lia. }
  apply foldl_insert_lookup_other. apply final_path_not_saved_in_loop.
Qed.

End LoopEnds.

Lemma no_repeat_snoc l e :
  no_repeat (l ++ [e]) -> no_repeat l ∧ last l ≠ Some e.
Proof.
  induction l as [|a l IH]; [done|].
  destruct l as [|b l].
  - simpl. intros [Hne _]. split; [done|]. congruence.
  - intros [Hne H]. destruct (IH H) as [Hl Hlast]. split; [by split|].
    by rewrite last_cons_cons.
Qed.

(** X10.  For the code type [python]: when, after [k] repairs, the next
    execution fails with a fresh error and the repair request for it fails,
    the run ends with the error of the request.  The artifacts written are
    [initial] and [iteration_1] to [iteration_k]; no [final] artifact is
    written, and a [final] file from before the run is left as it was. *)
Theorem repair_request_failure_aborts args w code0 w0 errs e replies execs_rest :
  code_type args = "python" ->
  startup args w = (Ok code0, w0) ->
  fresh_errors None (errs ++ [e]) ->
  execs w0 = (ExecRaises <$> errs) ++ ExecRaises e :: execs_rest ->
  length replies = length errs -> llm w0 = replies ->
  Z.of_nat (length errs) < iterations args ->
  exists w',
    main args w = (Raise (Exception "Connection error."), w') ∧
    length (requests (events_of (main args) w)) = S (length errs) ∧
    (executed (events_of (main args) w)).*2 = (ExecRaises <$> errs) ++ [ExecRaises e] ∧
    (written (events_of (main args) w)).*1
    = script_path "initial" "python"
      :: (iteration_path "python" <$> range1 (Z.of_nat (length errs))) ∧
    files w' !! script_path "final" "python" = files w !! script_path "final" "python".
Proof.
  intros Hpy Hs Hfresh Hex Hlr Hllm Hk.
  apply no_repeat_snoc in Hfresh as [Hfresh Hlast].
  apply (run_raises_after_repairs args w code0 w0 errs replies
           (ExecRaises e :: execs_rest) []); try done.
  - by rewrite app_nil_r.
  - intros i st w2 Hex2 Hllm2 Hst.
    apply (iteration_repair_fails args i st w2 e execs_rest); try done. by rewrite Hst.
Qed.

Lemma repair_request_failure_aborts_witness :
  startup (inline_args "python" 5) (sample_world [] [attempt1; attempt2]
                                      [ExecRaises error1; ExecRaises error2])
  = (Ok "print(hello)",
     snd (startup (inline_args "python" 5)
            (sample_world [] [attempt1; attempt2] [ExecRaises error1; ExecRaises error2])))
  ∧ exists w',
      main (inline_args "python" 5)
        (sample_world [] [attempt1; attempt2] [ExecRaises error1; ExecRaises error2])
      = (Raise (Exception "Connection error."), w') ∧
      length (requests (events_of (main (inline_args "python" 5))
                          (sample_world [] [attempt1; attempt2]
                             [ExecRaises error1; ExecRaises error2]))) = 2%nat ∧
      (executed (events_of (main (inline_args "python" 5))
                   (sample_world [] [attempt1; attempt2]
                      [ExecRaises error1; ExecRaises error2]))).*2
      = [ExecRaises error1; ExecRaises error2] ∧
      (written (events_of (main (inline_args "python" 5))
                  (sample_world [] [attempt1; attempt2]
                     [ExecRaises error1; ExecRaises error2]))).*1
      = script_path "initial" "python" :: (iteration_path "python" <$> range1 1) ∧
      files w' !! script_path "final" "python"
      = files (sample_world [] [attempt1; attempt2] [ExecRaises error1; ExecRaises error2])
          !! script_path "final" "python".
Proof.
  split; [by vm_compute|].
  apply (repair_request_failure_aborts (inline_args "python" 5)
           (sample_world [] [attempt1; attempt2] [ExecRaises error1; ExecRaises error2])
           "print(hello)"
           (snd (startup (inline_args "python" 5)
                   (sample_world [] [attempt1; attempt2]
                      [ExecRaises error1; ExecRaises error2])))
           [error1] error2 [attempt2] []).
  - reflexivity.
  - by vm_compute.
  - by vm_compute.
  - by vm_compute.
  - reflexivity.
  - by vm_compute.
  - by vm_compute.
Defined.

(** X11.  For the code type [python]: when, after [k] repairs, the executed
    code leaves through something that is not an [Exception] (a
    [SystemExit], say), the loop does not catch it and the run ends there:
    no repair is requested for it, and neither a [debugged] nor a [final]
    artifact is written. *)
Theorem exec_abort_ends_run args w code0 w0 errs replies execs_rest llm_rest :
  code_type args = "python" ->
  startup args w = (Ok code0, w0) ->
  fresh_errors None errs ->
  execs w0 = (ExecRaises <$> errs) ++ ExecAborts :: execs_rest ->
  length replies = length errs -> llm w0 = replies ++ llm_rest ->
  Z.of_nat (length errs) < iterations args ->
  exists w',
    main args w = (Raise BaseException, w') ∧
    length (requests (events_of (main args) w)) = S (length errs) ∧
    (executed (events_of (main args) w)).*2 = (ExecRaises <$> errs) ++ [ExecAborts] ∧
    (written (events_of (main args) w)).*1
    = script_path "initial" "python"
      :: (iteration_path "python" <$> range1 (Z.of_nat (length errs))) ∧
    files w' !! script_path "final" "python" = files w !! script_path "final" "python".
Proof.
  intros Hpy Hs Hfresh Hex Hlr Hllm Hk.
  apply (run_raises_after_repairs args w code0 w0 errs replies
           (ExecAborts :: execs_rest) llm_rest); try done.
  intros i st w2 Hex2 Hllm2 Hst.
  apply (iteration_aborts args i st w2); [done|]. left. by rewrite Hex2.
Qed.

Lemma exec_abort_ends_run_witness :
  startup (inline_args "python" 5) (sample_world [] [attempt1] [ExecAborts])
  = (Ok "print(hello)",
     snd (startup (inline_args "python" 5) (sample_world [] [attempt1] [ExecAborts])))
  ∧ exists w',
      main (inline_args "python" 5) (sample_world [] [attempt1] [ExecAborts])
      = (Raise BaseException, w') ∧
      length (requests (events_of (main (inline_args "python" 5))
                          (sample_world [] [attempt1] [ExecAborts]))) = 1%nat ∧
      (executed (events_of (main (inline_args "python" 5))
                   (sample_world [] [attempt1] [ExecAborts]))).*2 = [ExecAborts] ∧
      (written (events_of (main (inline_args "python" 5))
                  (sample_world [] [attempt1] [ExecAborts]))).*1
      = script_path "initial" "python" :: (iteration_path "python" <$> range1 0) ∧
      files w' !! script_path "final" "python"
      = files (sample_world [] [attempt1] [ExecAborts]) !! script_path "final" "python".
Proof.
  split; [by vm_compute|].
  apply (exec_abort_ends_run (inline_args "python" 5)
           (sample_world [] [attempt1] [ExecAborts]) "print(hello)"
           (snd (startup (inline_args "python" 5) (sample_world [] [attempt1] [ExecAborts])))
           [] [] [] []).
  - reflexivity.
  - by vm_compute.
  - by vm_compute.
  - by vm_compute.
  - reflexivity.
  - by vm_compute.
  - by vm_compute.
Defined.

(** X12.  For the code type [python]: when the executions of passes 1 to
    [k] fail with fresh errors, each repaired by the model, and the
    execution of pass [k + 1] succeeds, the loop is left at pass [k + 1];
    the artifacts written are [initial], [iteration_1] to [iteration_k],
    [debugged] and [final]; and [debugged] and [final] both hold the last
    code generated, the one that ran. *)
Theorem success_after_repairs args w code0 w0 errs replies execs_rest llm_rest :
  code_type args = "python" ->
  startup args w = (Ok code0, w0) ->
  fresh_errors None errs ->
  execs w0 = (ExecRaises <$> errs) ++ ExecOk :: execs_rest ->
  length replies = length errs -> llm w0 = replies ++ llm_rest ->
  Z.of_nat (length errs) < iterations args ->
  exists w' c repairs,
    main args w = (Ok (FinalExit (BreakAt (Z.of_nat (length errs) + 1) ExecutedOk)), w') ∧
    last (generated "python" (events_of (main args) w)) = Some c ∧
    length (requests (events_of (main args) w)) = S (length errs) ∧
    (executed (events_of (main args) w)).*2 = (ExecRaises <$> errs) ++ [ExecOk] ∧
    last (executed (events_of (main args) w)) = Some (c, ExecOk) ∧
    written (events_of (main args) w)
    = (script_path "initial" "python", code0) :: repairs
      ++ [(script_path "debugged" "python", c); (script_path "final" "python", c)] ∧
    repairs.*1 = iteration_path "python" <$> range1 (Z.of_nat (length errs)) ∧
    files w' !! script_path "final" "python" = Some c.
Proof.
  intros Hpy Hs Hfresh Hex Hlr Hllm Hk.
  set (k := Z.of_nat (length errs)).
  destruct (main_through_loop args w code0 w0 Hs)
    as (w1 & user & reply & Hc0 & Hllm1 & Hex1 & _ & Hok).
  { rewrite Hpy. discriminate. }
  rewrite Hex in Hex1. rewrite Hllm in Hllm1.
  destruct (range1_split (length errs) (iterations args) Hk) as [more Hrange].
  destruct (for_loop_repairs args errs Hpy replies (Z.of_nat <$> seq 1 (length errs))
              ((k + 1) :: more) (mkLoop code0 None) w1 (ExecOk :: execs_rest) llm_rest)
    as (w2 & d2 & E2 & A2 & Hex2 & Hllm2 & G2 & U2 & X2 & W2);
    [done|by rewrite length_fmap, length_seq|done|done|done|].
  cbn [code last_error_message] in E2.
  set (codes := (fun r => extract_code r (code_type args)) <$> replies) in *.
  set (st := mkLoop (default code0 (last codes)) (from_option Some None (last errs))) in *.
  destruct (iteration_success args (k + 1) st w2 execs_rest Hpy Hex2)
    as (w3 & d3 & E3 & A3 & R3 & X3 & W3).
  assert (Hloop : for_loop args (range1 (iterations args)) (mkLoop code0 None) w1
                  = (Ok (st, BreakAt (k + 1) ExecutedOk), w3)).
  { rewrite Hrange. fold k. rewrite E2. simpl. by rewrite (bind_ok _ _ _ _ _ E3). }
  destruct (Hok _ _ _ _ Hloop (advances_trans _ _ _ _ _ A2 A3))
    as (w4 & Hmain & _ & _ & Hf & R & X & W).
  exists w4, (code st), (written d2). rewrite Hpy in *. split; [done|].
  unfold generated in *.
  rewrite X, R, W, !executed_app, !requests_app, !written_app, R3, X3, W3.
  rewrite !app_nil_r, fmap_app, X2.
  split.
  { rewrite fmap_cons, last_cons, G2. simpl. rewrite <- Hc0. by destruct (last codes). }
  split.
  { simpl. f_equal. apply (f_equal length) in G2.
    rewrite length_fmap in G2. subst codes. rewrite length_fmap in G2. lia. }
  split; [done|].
  split; [by rewrite last_snoc|].
  split; [by rewrite <- app_assoc|].
  split; [|done].
  rewrite W2, fst_zip_with_path.
  - unfold range1, k. by rewrite Nat2Z.id.
  - subst codes. rewrite !length_fmap, length_seq. lia.
Qed.

Lemma success_after_repairs_witness :
  startup (inline_args "python" 3) repaired_world
  = (Ok "print(hello)", snd (startup (inline_args "python" 3) repaired_world))
  ∧ exists w' c repairs,
      main (inline_args "python" 3) repaired_world
      = (Ok (FinalExit (BreakAt (Z.of_nat (length [error1]) + 1) ExecutedOk)), w') ∧
      last (generated "python" (events_of (main (inline_args "python" 3)) repaired_world))
      = Some c ∧
      length (requests (events_of (main (inline_args "python" 3)) repaired_world)) = 2%nat ∧
      (executed (events_of (main (inline_args "python" 3)) repaired_world)).*2
      = [ExecRaises error1; ExecOk] ∧
      last (executed (events_of (main (inline_args "python" 3)) repaired_world))
      = Some (c, ExecOk) ∧
      written (events_of (main (inline_args "python" 3)) repaired_world)
      = (script_path "initial" "python", "print(hello)") :: repairs
        ++ [(script_path "debugged" "python", c); (script_path "final" "python", c)] ∧
      repairs.*1 = iteration_path "python" <$> range1 1 ∧
      files w' !! script_path "final" "python" = Some c.
Proof.
  split; [by vm_compute|].
  apply (success_after_repairs (inline_args "python" 3) repaired_world "print(hello)"
           (snd (startup (inline_args "python" 3) repaired_world))
           [error1] [attempt3] [] []).
  - reflexivity.
  - by vm_compute.
  - by vm_compute.
  - by vm_compute.
  - reflexivity.
  - by vm_compute.
  - by vm_compute.
Defined.

(** X13.  With [--iterations] below 1 and a code type other than [latex],
    [python] included, the loop has no pass to make: the generated code is
    never executed and no repair is requested, and the run saves it twice,
    as [initial] and as [final]. *)
Theorem no_pass_to_make args w code0 w0 :
  code_type args ≠ "latex" ->
  startup args w = (Ok code0, w0) ->
  iterations args < 1 ->
  exists w',
    main args w = (Ok (FinalExit RangeExhausted), w') ∧
    generated (code_type args) (events_of (main args) w) = [code0] ∧
    executed (events_of (main args) w) = [] ∧
    written (events_of (main args) w)
    = [(script_path "initial" (code_type args), code0);
       (script_path "final" (code_type args), code0)] ∧
    execs w' = execs w0.
Proof.
  intros Hct Hs Hn.
  destruct (main_through_loop args w code0 w0 Hs Hct)
    as (w1 & user & reply & -> & _ & Hex1 & _ & Hok).
  set (st := mkLoop (extract_code reply (code_type args)) None).
  assert (Hloop : for_loop args (range1 (iterations args)) st w1 = (Ok (st, RangeExhausted), w1)).
  { unfold range1. by replace (Z.to_nat (iterations args)) with 0%nat by lia. }
  destruct (Hok _ _ _ _ Hloop (advances_refl w1)) as (w3 & Hmain & _ & Hex3 & _ & R & X & W).
  exists w3. split; [done|]. unfold generated. rewrite R, X, W.
  split; [done|]. split; [done|]. split; [done|]. by rewrite Hex3, Hex1.
Qed.

Lemma no_pass_to_make_witness :
  startup (inline_args "python" 0) success_world
  = (Ok "print('hello')", snd (startup (inline_args "python" 0) success_world))
  ∧ exists w',
      main (inline_args "python" 0) success_world = (Ok (FinalExit RangeExhausted), w') ∧
      generated "python" (events_of (main (inline_args "python" 0)) success_world)
      = ["print('hello')"] ∧
      executed (events_of (main (inline_args "python" 0)) success_world) = [] ∧
      written (events_of (main (inline_args "python" 0)) success_world)
      = [(script_path "initial" "python", "print('hello')");
         (script_path "final" "python", "print('hello')")] ∧
      execs w' = execs (snd (startup (inline_args "python" 0) success_world)).
Proof.
  split; [by vm_compute|].
  apply (no_pass_to_make (inline_args "python" 0) success_world "print('hello')"
           (snd (startup (inline_args "python" 0) success_world))).
  - discriminate.
  - by vm_compute.
  - by vm_compute.
Defined.

(** ** More on [extract_code] *)

Section ExtractionEdges.
Import PyStr PyStrFacts.

Lemma take_drop_string n s : s = take n s +:+ drop n s.
Proof.
  revert s. induction n as [|n IH]; intros [|a s]; try done.
  simpl. rewrite app_cons. f_equal. apply IH.
Qed.

(** X14.  Whatever the reply holds, [extract_code] returns a piece of it:
    text that stands in the reply in one stretch.  It never returns text the
    model did not send. *)
Theorem extract_code_is_piece_of_reply content code_type :
  exists before after, content = before +:+ extract_code content code_type +:+ after.
Proof.
  unfold extract_code, slice.
  set (n := Z.to_nat (_ - _)). set (lo := Z.to_nat _).
  exists (take lo content), (drop n (drop lo content)).
  rewrite <- take_drop_string. apply take_drop_string.
Qed.

(** X15.  When the reply opens a block and never closes it, [find] answers
    [-1] for the closing fence and the slice ends one character before the
    end of the reply: [extract_code] returns what follows the opening tag
    without its last character. *)
Theorem extract_code_unclosed_block pre body code_type :
  (forall i, (i < String.length pre)%nat ->
             starts_with ("```" +:+ code_type +:+ nl)
               (drop i (pre +:+ ("```" +:+ code_type +:+ nl) +:+ body)) = false) ->
  contains body (nl +:+ "```") = false ->
  extract_code (pre +:+ ("```" +:+ code_type +:+ nl) +:+ body) code_type
  = take (String.length body - 1) body.
Proof.
  intros Hopen Hclose. unfold contains in Hclose.
  rewrite bool_decide_eq_false, <- eq_None_not_Some in Hclose.
  change ("```" +:+ code_type +:+ nl) with (fence +:+ code_type +:+ nl) in *.
  change (nl +:+ "```") with (nl +:+ fence) in Hclose.
  unfold extract_code.
  set (tag := fence +:+ code_type +:+ nl) in *.
  set (content := pre +:+ tag +:+ body) in *.
  assert (Hfirst : first_occurrence tag content = Some (String.length pre)).
  { apply (first_occurrence_at tag pre body). exact Hopen. }
  rewrite find_0, Hfirst.
  assert (Hlen : String.length content
                 = (String.length pre + String.length tag + String.length body)%nat).
  { unfold content. rewrite !length_app. lia. }
  assert (Htag : (4 <= String.length tag)%nat).
  { unfold tag, fence. rewrite !length_app. simpl. lia. }
  assert (Hdrop : drop (String.length pre + String.length tag) content = body).
  { unfold content. rewrite <- (app_assoc pre tag), <- length_app. apply drop_app. }
  replace (Z.of_nat (String.length pre) + len tag)
    with (Z.of_nat (String.length pre + String.length tag)) by (unfold len; lia).
  rewrite find_at by lia. rewrite Hdrop, Hclose.
  unfold slice, clamp, len. rewrite Hlen.
  destruct (Z.ltb_spec (Z.of_nat (String.length pre + String.length tag)) 0) as [E1|E1];
    [lia|].
  change (-1 <? 0) with true. cbv iota.
  rewrite Z.min_l by lia. rewrite Z.max_l by lia. rewrite Nat2Z.id, Hdrop.
  f_equal. lia.
Qed.

Lemma extract_code_unclosed_block_witness :
  contains ("print(1)" +:+ nl +:+ "print(2)") (nl +:+ "```") = false
  ∧ extract_code (("Sure:" +:+ nl) +:+ ("```" +:+ "python" +:+ nl)
                  +:+ ("print(1)" +:+ nl +:+ "print(2)")) "python"
    = "print(1)" +:+ nl +:+ "print(2" .
Proof.
  split; [reflexivity|].
  rewrite (extract_code_unclosed_block ("Sure:" +:+ nl) ("print(1)" +:+ nl +:+ "print(2)")
             "python").
  - reflexivity.
  - intros i Hi. simpl in Hi. do 6 (destruct i as [|i]; [reflexivity|]). lia.
  - reflexivity.
Defined.

End ExtractionEdges.

(** ** Saving and reading back *)

Lemma save_code_to_file_world code ct i status w :
  files (snd (save_code_to_file code ct i status w))
  = <[script_path status ct := code]> (files w) ∧
  bool_decide ("./scripts" ∈ dirs (snd (save_code_to_file code ct i status w)))
  || bool_decide (is_Some (files (snd (save_code_to_file code ct i status w)) !! "./scripts"))
  = true.
Proof.
  unfold save_code_to_file, bind, path_exists, makedirs, write_file, ret.
  destruct (negb _) eqn:Hthere; world_simpl; fold (script_path status ct).
  - split; [done|]. rewrite bool_decide_eq_true_2; [done|set_solver].
  - split; [done|]. apply negb_false_iff in Hthere.
    apply orb_true_iff in Hthere as [Hd|Hf]; [by rewrite Hd|].
    rewrite orb_true_iff. right.
    destruct (decide ("./scripts" = script_path status ct)) as [Heq|Hne].
    + rewrite <- Heq, lookup_insert_eq. by apply bool_decide_eq_true_2.
    + by rewrite lookup_insert_ne.
Qed.



(** X17.  Saving twice under one status and code type keeps the second
    text only, and the second call does not create the directory again: all
    it does is the one write. *)
Theorem save_twice_keeps_last code1 code2 ct i j status w :
  files (snd (save_code_to_file code2 ct j status
                (snd (save_code_to_file code1 ct i status w))))
  = <[script_path status ct := code2]> (files w) ∧
  events_of (save_code_to_file code2 ct j status) (snd (save_code_to_file code1 ct i status w))
  = [EvWrite (script_path status ct) code2].
Proof.
  destruct (save_code_to_file_world code1 ct i status w) as [Hf1 Hthere].
  set (w1 := snd (save_code_to_file code1 ct i status w)) in *.
  unfold events_of, save_code_to_file, bind, path_exists, makedirs, write_file, ret.
  rewrite Hthere. cbn [negb]. world_simpl. fold (script_path status ct).
  rewrite Hf1, insert_insert_eq.
  split; [done|]. by rewrite drop_app_length.
Qed.

(** ** The key file *)

Section KeyFile.
Import PyStrFacts.





End KeyFile.

(** ** What the repair requests carry *)

Section RepairTrace.
Variable args : Args.

(** Through a run of repaired failures, each request is built from the
    execution just before it, and each execution runs the code of the
    request just before it. *)
Lemma for_loop_repairs_trace errs :
  code_type args = "python" ->
  forall replies indices more st w execs_rest llm_rest,
    length replies = length errs -> length indices = length errs ->
    fresh_errors (last_error_message st) errs ->
    execs w = (ExecRaises <$> errs) ++ execs_rest ->
    llm w = replies ++ llm_rest ->
    exists st' w' d,
      for_loop args (indices ++ more) st w = for_loop args more st' w' ∧
      advances w w' d ∧
      Some <$> user_messages d = repair_request args <$> executed d ∧
      (executed d).*1 = take (length errs) (code st :: generated (code_type args) d) ∧
      (executed d).*2 = ExecRaises <$> errs.
Proof.
  intros Hct. induction errs as [|e errs IH];
    intros replies indices more st w execs_rest llm_rest Hlr Hli Hfresh Hex Hllm.
  - destruct replies; [|done]. destruct indices; [|done].
    exists st, w, []. split; [done|]. split; [apply advances_refl|done].
  - destruct replies as [|r replies]; [done|]. destruct indices as [|i indices]; [done|].
    simpl in Hlr, Hli, Hex, Hllm.
    apply fresh_errors_cons in Hfresh as [Hne Hfresh].
    destruct (iteration_repair args i st w e _ r _ Hct Hex Hne Hllm)
      as (w1 & d1 & E1 & A1 & R1 & X1 & W1).
    assert (Hex1 : execs w1 = (ExecRaises <$> errs) ++ execs_rest).
    { destruct A1 as (_ & _ & -> & _). by rewrite X1, Hex. }
    assert (Hllm1 : llm w1 = replies ++ llm_rest).
    { destruct A1 as (_ & -> & _ & _). by rewrite R1, Hllm. }
    destruct (IH replies indices more
                (mkLoop (extract_code r (code_type args)) (Some e)) w1 execs_rest llm_rest)
      as (st2 & w2 & d2 & E2 & A2 & U2 & C2 & X2); [lia|lia|done|done|done|].
    exists st2, w2, (d1 ++ d2). split; [|split; [by eapply advances_trans|]].
    + simpl. by rewrite (bind_ok _ _ _ _ _ E1).
    + rewrite generated_app, user_messages_app, executed_app, !fmap_app.
      rewrite U2, C2, X2, X1. unfold generated, user_messages. rewrite R1.
      simpl. done.
Qed.

(** X19.  In a run of the code type [python] whose every execution fails
    with a fresh error and is repaired, the repair requests are built from
    the executions one by one: each consists of the instruction followed by
    the template filled with [args.prompt] as given on the command line,
    the code just executed and the error it raised; and each pass executes
    the code generated by the request before it. *)
Theorem repair_requests_follow_executions w code0 w0 errs replies execs_rest llm_rest :
  code_type args = "python" ->
  startup args w = (Ok code0, w0) ->
  Z.of_nat (length errs) = iterations args ->
  fresh_errors None errs ->
  execs w0 = (ExecRaises <$> errs) ++ execs_rest ->
  length replies = length errs -> llm w0 = replies ++ llm_rest ->
  Some <$> drop 1 (user_messages (events_of (main args) w))
  = repair_request args <$> executed (events_of (main args) w) ∧
  (executed (events_of (main args) w)).*1
  = take (length errs) (generated "python" (events_of (main args) w)) ∧
  (executed (events_of (main args) w)).*2 = ExecRaises <$> errs.
Proof.
  intros Hpy Hs Hn Hfresh Hex Hlr Hllm.
  destruct (main_through_loop args w code0 w0 Hs)
    as (w1 & user & reply & Hc0 & Hllm1 & Hex1 & _ & Hok).
  { rewrite Hpy. discriminate. }
  rewrite Hex in Hex1. rewrite Hllm in Hllm1.
  destruct (for_loop_repairs_trace errs Hpy replies (range1 (iterations args)) []
              (mkLoop code0 None) w1 execs_rest llm_rest)
    as (st2 & w2 & d2 & E2 & A2 & U2 & C2 & X2);
    [done|unfold range1; rewrite length_fmap, length_seq; lia|done|done|done|].
  rewrite app_nil_r in E2. simpl in E2.
  destruct st2 as [c2 l2].
  destruct (Hok _ _ _ _ E2 A2) as (w3 & Hmain & _ & _ & _ & R & X & W).
  unfold user_messages, generated in *. rewrite R, X. rewrite Hpy in *.
  simpl. rewrite <- Hc0. split; [done|]. split; [|done].
  rewrite C2. simpl. by destruct (length errs).
Qed.

End RepairTrace.

Lemma repair_requests_follow_executions_witness :
  startup prompt_file_args (sample_world [] [attempt1; attempt2; attempt3; attempt1; attempt2;
                                             attempt3]
                              [ExecRaises error1; ExecRaises error2; ExecRaises error1;
                               ExecRaises error2; ExecRaises error1])
  = (Ok "print(hello)",
     snd (startup prompt_file_args
            (sample_world [] [attempt1; attempt2; attempt3; attempt1; attempt2; attempt3]
               [ExecRaises error1; ExecRaises error2; ExecRaises error1;
                ExecRaises error2; ExecRaises error1])))
  ∧ take 1 (drop 1 (user_messages
                      (events_of (main prompt_file_args)
                         (sample_world [] [attempt1; attempt2; attempt3; attempt1; attempt2;
                                           attempt3]
                            [ExecRaises error1; ExecRaises error2; ExecRaises error1;
                             ExecRaises error2; ExecRaises error1]))))
    = [instruction "python" +:+ repair_prompt "task.txt" "print(hello)" error1]
  ∧ (executed (events_of (main prompt_file_args)
                 (sample_world [] [attempt1; attempt2; attempt3; attempt1; attempt2; attempt3]
                    [ExecRaises error1; ExecRaises error2; ExecRaises error1;
                     ExecRaises error2; ExecRaises error1]))).*1
    = ["print(hello)"; "print(Hello)"; "print('hello')"; "print(hello)"; "print(Hello)"].
Proof.
  split; [by vm_compute|].
  destruct (repair_requests_follow_executions prompt_file_args
              (sample_world [] [attempt1; attempt2; attempt3; attempt1; attempt2; attempt3]
                 [ExecRaises error1; ExecRaises error2; ExecRaises error1;
                  ExecRaises error2; ExecRaises error1])
              "print(hello)"
              (snd (startup prompt_file_args
                      (sample_world [] [attempt1; attempt2; attempt3; attempt1; attempt2;
                                        attempt3]
                         [ExecRaises error1; ExecRaises error2; ExecRaises error1;
                          ExecRaises error2; ExecRaises error1])))
              [error1; error2; error1; error2; error1]
              [attempt2; attempt3; attempt1; attempt2; attempt3] [] [])
    as (_ & Hc & _).
  - reflexivity.
  - by vm_compute.
  - reflexivity.
  - by vm_compute.
  - by vm_compute.
  - reflexivity.
  - by vm_compute.
  - split; [by vm_compute|]. rewrite Hc. by vm_compute.
Defined.
